(** * Shallow embedding of the x402 httpx client scripts

    Sources: [src/clients/httpx/main.py] and
    [src/clients/httpx/test_function.py].

    Both scripts read their configuration from the environment, perform a
    single GET through the payment-aware client [x402HttpxClient] and print a
    report of the response.  The third-party pieces (the payment client, the
    x402 settlement decoder, [json.loads]/[json.dumps] and
    [Account.from_key]) are taken as parameters of the development: every
    theorem holds for all of their behaviours. *)

From Stdlib Require Import String Ascii List Bool Arith Lia.
From Stdlib Require Import Strings.Byte Numbers.DecimalString.
Import ListNotations.
Open Scope list_scope.
Open Scope string_scope.

(** ** Python strings and the helpers the scripts use *)

Definition nl : string := String (ascii_of_nat 10) EmptyString.
Definition dquote : string := String (ascii_of_nat 34) EmptyString.

(** [str.lower()] on ASCII text (header names are ASCII). *)
Definition lower_char (c : ascii) : ascii :=
  let n := nat_of_ascii c in
  if Nat.leb 65 n && Nat.leb n 90 then ascii_of_nat (n + 32) else c.

Fixpoint lower (s : string) : string :=
  match s with
  | EmptyString => EmptyString
  | String c r => String (lower_char c) (lower r)
  end.

(** [needle in hay] for strings. *)
Fixpoint contains (needle hay : string) : bool :=
  prefix needle hay ||
  match hay with
  | EmptyString => false
  | String _ r => contains needle r
  end.

(** [s.startswith(p)]. *)
Definition startswith (s p : string) : bool := prefix p s.

(** [c * n] for a one-character string [c]. *)
Fixpoint rep (n : nat) (c : string) : string :=
  match n with
  | O => EmptyString
  | S k => c ++ rep k c
  end.

(** [f"{n}"] for a non-negative int. *)
Definition str_int (n : nat) : string :=
  NilEmpty.string_of_uint (Nat.to_uint n).

(** A byte as two lower-case hexadecimal digits ([f"{b:02x}"]). *)
Definition hex_lower (n : nat) : ascii :=
  ascii_of_nat (if Nat.ltb n 10 then 48 + n else 87 + n).

Definition hex2 (n : nat) : string :=
  String (hex_lower (n / 16)) (String (hex_lower (n mod 16)) EmptyString).

(** Python truthiness of [os.getenv(...)]: [None] and [""] are false. *)
Definition truthy (o : option string) : bool :=
  match o with
  | Some s => negb (String.eqb s "")
  | None => false
  end.

(** [os.getenv(k) or d]. *)
Definition or_default (o : option string) (d : string) : string :=
  match o with
  | Some s => if String.eqb s "" then d else s
  | None => d
  end.

(** [s.split('=', 1)] when ['=' in s]: the text before the first ['='] and
    the rest. *)
Fixpoint split_eq (s : string) : option (string * string) :=
  match s with
  | EmptyString => None
  | String c r =>
      if Ascii.eqb c "="%char then Some (EmptyString, r)
      else match split_eq r with
           | Some (k, v) => Some (String c k, v)
           | None => None
           end
  end.

(** ** Dicts: association lists in insertion order *)

Definition dict := list (string * string).

(** [d[k] = v]: an existing key keeps its position, a new one goes last. *)
Fixpoint dict_set (d : dict) (k v : string) : dict :=
  match d with
  | [] => [(k, v)]
  | (k', v') :: r =>
      if String.eqb k k' then (k, v) :: r else (k', v') :: dict_set r k v
  end.

Fixpoint dict_get (d : dict) (k : string) : option string :=
  match d with
  | [] => None
  | (k', v) :: r => if String.eqb k k' then Some v else dict_get r k
  end.

(** [d.get(k, default)]. *)
Definition dict_get_default (d : dict) (k default : string) : string :=
  match dict_get d k with Some v => v | None => default end.

(** [{**a, **b}]. *)
Definition dict_merge (a b : dict) : dict :=
  fold_left (fun acc kv => dict_set acc (fst kv) (snd kv)) b a.

(** [repr] of a str: single quotes unless the text has a single quote and
    no double quote; backslashes and the chosen quote are escaped, as are
    tab, newline and carriage return, and the other ASCII control
    characters as [\xhh].  Characters outside ASCII are copied, as [repr]
    does for the printable ones; [repr] escapes the ones Unicode's database
    marks non-printable, which is not modelled: the registry is ASCII,
    and the one line that shows a [repr] of other text (the banner's
    parameters) is not the subject of any property below. *)
Definition repr_char (q c : ascii) : string :=
  let n := nat_of_ascii c in
  if Ascii.eqb c "\"%char || Ascii.eqb c q then String "\"%char (String c EmptyString)
  else if Nat.eqb n 9 then "\t"
  else if Nat.eqb n 10 then "\n"
  else if Nat.eqb n 13 then "\r"
  else if Nat.ltb n 32 || Nat.eqb n 127 then "\x" ++ hex2 n
  else String c EmptyString.

Fixpoint repr_escape (q : ascii) (s : string) : string :=
  match s with
  | EmptyString => EmptyString
  | String c r => repr_char q c ++ repr_escape q r
  end.

Definition repr_str (s : string) : string :=
  if contains "'" s && negb (contains dquote s)
  then dquote ++ repr_escape (ascii_of_nat 34) s ++ dquote
  else "'" ++ repr_escape "'"%char s ++ "'".

Fixpoint join (sep : string) (l : list string) : string :=
  match l with
  | [] => EmptyString
  | [x] => x
  | x :: r => x ++ sep ++ join sep r
  end.

(** [repr] of a list of str and of a dict of str to str. *)
Definition repr_list (l : list string) : string :=
  "[" ++ join ", " (map repr_str l) ++ "]".

Definition repr_dict (d : dict) : string :=
  "{" ++ join ", " (map (fun kv => repr_str (fst kv) ++ ": " ++ repr_str (snd kv)) d)
  ++ "}".

(** ** [custom_payment_selector] (both scripts)

    The library's [x402Client.default_payment_requirements_selector] is not
    part of this repository: it is a parameter, over any type of payment
    requirements, filters and results. *)
Section Selector.
Context {Req MaxValue Sel : Type}.
Variable default_payment_requirements_selector :
  list Req -> option string -> option string -> option MaxValue -> Sel.

(** main.py, lines 33-50. *)
Definition custom_payment_selector_main (accepts : list Req)
    (network_filter scheme_filter : option string) (max_value : option MaxValue) : Sel :=
  let _ := network_filter in
  default_payment_requirements_selector accepts (Some "base") scheme_filter max_value.

(** test_function.py, lines 54-63. *)
Definition custom_payment_selector_test (accepts : list Req)
    (network_filter scheme_filter : option string) (max_value : option MaxValue) : Sel :=
  default_payment_requirements_selector accepts (Some "base") scheme_filter max_value.
End Selector.

(** ** Exceptions, printed output and process termination *)

(** Python's exception classes, as far as [except Exception] tells them
    apart: subclasses of [Exception], and the [BaseException] subclasses
    outside it ([KeyboardInterrupt], [asyncio.CancelledError],
    [SystemExit], ...). *)
Inductive exn_class := ExceptionClass | BaseExceptionOnly.

Record exn := mk_exn { exn_kind : exn_class; exn_msg : string }.

Definition is_Exception (e : exn) : bool :=
  match exn_kind e with ExceptionClass => true | BaseExceptionOnly => false end.

(** Observable actions: a printed line, the stack trace printed by
    [traceback.print_exc()], and the GET sent through the payment client. *)
Inductive event :=
| Print (line : string)
| PrintTraceback (e : exn)
| HttpGet (base_url path : string).

Definition is_http_get (ev : event) : bool :=
  match ev with HttpGet _ _ => true | _ => false end.

(** How the process ends: [exit(n)] / [sys.exit(n)] / falling off the end
    ([Exited 0]), or an exception nobody caught. *)
Inductive termination := Exited (code : nat) | Uncaught (e : exn).

Inductive res (A : Type) := Ok (a : A) | Raise (e : exn).
Arguments Ok {A} a.
Arguments Raise {A} e.

(** Code that prints and may raise: the lines printed so far and the
    outcome. *)
Definition io (A : Type) : Type := list event * res A.

Definition ret {A} (a : A) : io A := ([], Ok a).
Definition raise {A} (e : exn) : io A := ([], Raise e).
Definition print (s : string) : io unit := ([Print s], Ok tt).
Definition of_res {A} (r : res A) : io A := ([], r).

Definition bind {A B} (m : io A) (f : A -> io B) : io B :=
  match m with
  | (out, Ok a) => let (out', r) := f a in ((out ++ out')%list, r)
  | (out, Raise e) => (out, Raise e)
  end.

Notation "x <- m ;; k" := (bind m (fun x => k))
  (at level 61, m at next level, right associativity).
Notation "m ;;; k" := (bind m (fun _ => k))
  (at level 61, right associativity).

(** [for x in l: body(x)]. *)
Fixpoint for_each {A} (l : list A) (body : A -> io unit) : io unit :=
  match l with
  | [] => ret tt
  | x :: r => body x ;;; for_each r body
  end.

(** [try: body  except Exception as e: print(...); traceback.print_exc()]
    as it ends the coroutine: the process then exits with status 0 unless an
    exception escapes the handler. *)
Definition try_except_Exception (m : io unit) : list event * termination :=
  match m with
  | (out, Ok _) => (out, Exited 0)
  | (out, Raise e) =>
      if is_Exception e
      then ((out ++ [Print (nl ++ "❌ Error occurred: " ++ exn_msg e); PrintTraceback e])%list,
            Exited 0)
      else (out, Uncaught e)
  end.

(** ** Responses *)

(** [response.headers.items()] is a list of (name, value) pairs, the
    [str]s httpx decodes them to; [in] and [[...]] on the headers compare
    names case-insensitively. *)
Record response := mk_response {
  status_code : nat;
  headers : list (string * string);
  body : list byte
}.

Fixpoint header_lookup (hs : list (string * string)) (name : string) : option string :=
  match hs with
  | [] => None
  | (k, v) :: r => if String.eqb (lower k) (lower name) then Some v else header_lookup r name
  end.

Definition in_range (lo hi b : nat) : bool := Nat.leb lo b && Nat.leb b hi.
Definition cont_byte (b : nat) : bool := in_range 128 191 b.

(** [bytes.decode()]: CPython's strict UTF-8 decoder.  It stops at the
    first error and reports it as [(start, end, reason)], positions in
    bytes: a byte that cannot start a character, a lead byte whose next
    byte does not fit (the span covers the bytes accepted so far), or a
    sequence cut short by the end of the data (the span runs to the end).
    The second byte of [E0], [ED], [F0] and [F4] sequences has a narrower
    range (no overlong forms, no surrogates, nothing above U+10FFFF). *)
Definition utf8_second_ok (b0 b1 : nat) : bool :=
  if Nat.eqb b0 224 then in_range 160 191 b1
  else if Nat.eqb b0 237 then in_range 128 159 b1
  else if Nat.eqb b0 240 then in_range 144 191 b1
  else if Nat.eqb b0 244 then in_range 128 143 b1
  else cont_byte b1.

Definition end_of_data : string := "unexpected end of data".
Definition invalid_continuation : string := "invalid continuation byte".

Fixpoint utf8_error (pos total : nat) (bs : list nat) : option (nat * nat * string) :=
  match bs with
  | [] => None
  | b0 :: r0 =>
      if Nat.leb b0 127 then utf8_error (S pos) total r0
      else if in_range 194 223 b0 then
        match r0 with
        | [] => Some (pos, total, end_of_data)
        | b1 :: r =>
            if cont_byte b1 then utf8_error (pos + 2) total r
            else Some (pos, pos + 1, invalid_continuation)
        end
      else if in_range 224 239 b0 then
        match r0 with
        | [] => Some (pos, total, end_of_data)
        | b1 :: r1 =>
            if negb (utf8_second_ok b0 b1) then Some (pos, pos + 1, invalid_continuation)
            else match r1 with
                 | [] => Some (pos, total, end_of_data)
                 | b2 :: r =>
                     if cont_byte b2 then utf8_error (pos + 3) total r
                     else Some (pos, pos + 2, invalid_continuation)
                 end
        end
      else if in_range 240 244 b0 then
        match r0 with
        | [] => Some (pos, total, end_of_data)
        | b1 :: r1 =>
            if negb (utf8_second_ok b0 b1) then Some (pos, pos + 1, invalid_continuation)
            else match r1 with
                 | [] => Some (pos, total, end_of_data)
                 | b2 :: r2 =>
                     if negb (cont_byte b2) then Some (pos, pos + 2, invalid_continuation)
                     else match r2 with
                          | [] => Some (pos, total, end_of_data)
                          | b3 :: r =>
                              if cont_byte b3 then utf8_error (pos + 4) total r
                              else Some (pos, pos + 3, invalid_continuation)
                          end
                 end
        end
      else Some (pos, pos + 1, "invalid start byte")
  end.

(** [str(e)] of the [UnicodeDecodeError]: one byte is named with its
    value, a longer span by its first and last positions. *)
Definition decode_error_message (bs : list nat) (start end_ : nat) (reason : string) : string :=
  if Nat.eqb end_ (S start) then
    "'utf-8' codec can't decode byte 0x" ++ hex2 (nth start bs 0) ++ " in position "
      ++ str_int start ++ ": " ++ reason
  else
    "'utf-8' codec can't decode bytes in position " ++ str_int start ++ "-"
      ++ str_int (end_ - 1) ++ ": " ++ reason.

Definition UnicodeDecodeError (msg : string) : exn := mk_exn ExceptionClass msg.

(** The decoded text is kept as its UTF-8 bytes. *)
Definition decode (bs : list byte) : res string :=
  let ns := map Byte.to_nat bs in
  match utf8_error 0 (length ns) ns with
  | None => Ok (string_of_list_byte bs)
  | Some (start, end_, reason) =>
      Raise (UnicodeDecodeError (decode_error_message ns start end_ reason))
  end.

(** Text ([str]) is held as its UTF-8 encoding; a lone surrogate, which
    only a command-line argument can hold, as its three-byte form.  A
    character starts at every byte that is not a continuation byte. *)
Definition char_start (c : ascii) : bool := negb (cont_byte (nat_of_ascii c)).

(** [len(s)]. *)
Fixpoint char_length (s : string) : nat :=
  match s with
  | EmptyString => 0
  | String c r => (if char_start c then 1 else 0) + char_length r
  end.

(** [s[:n]]: everything before the start of character [n]. *)
Fixpoint char_prefix (n : nat) (s : string) : string :=
  match s with
  | EmptyString => EmptyString
  | String c r =>
      if char_start c then
        match n with
        | O => EmptyString
        | S k => String c (char_prefix k r)
        end
      else String c (char_prefix n r)
  end.

(** ** The third-party collaborators *)
Record externals := mk_externals {
  (** [x402HttpxClient(account=..., base_url=..., headers=...)] and
      entering its [async with]: httpx checks the base URL and the headers
      here (a malformed URL raises [InvalidURL]). *)
  open_client : string -> list (string * string) -> res unit;
  (** [await client.get(path)] on an [x402HttpxClient] built with this base
      URL and these headers, including the whole 402 handshake, and the
      body read by [await response.aread()]. *)
  client_get : string -> list (string * string) -> string -> res response;
  (** [json.dumps(json.loads(text), indent=2)]; [None] when [json.loads]
      raises. *)
  json_pretty : string -> option string;
  (** [decode_x_payment_response(value)]: a dict, its values as printed. *)
  decode_x_payment_response : string -> res dict;
  (** [Account.from_key(key).address]. *)
  account_from_key : string -> res string
}.

(** Which of the two scripts: their reports differ in a few lines only. *)
Inductive script := MainPy | TestFunctionPy.

(** ** The response report (main.py lines 73-128, test_function.py lines
    161-208) *)
Section Report.
Variable X : externals.

(** [response = await client.get(endpoint_path)]. *)
Definition http_get (base_url : string) (hdrs : list (string * string))
    (endpoint_path : string) : io response :=
  ([HttpGet base_url endpoint_path], client_get X base_url hdrs endpoint_path).

(** [if 'payment' in key.lower() or 'x-' in key.lower():] *)
Definition header_shown (key : string) : bool :=
  contains "payment" (lower key) || contains "x-" (lower key).

(** [f"{value[:100]}..." if len(str(value)) > 100 else f"{value}"] *)
Definition header_display (value : string) : string :=
  if Nat.ltb 100 (char_length value) then char_prefix 100 value ++ "..." else value.

(** The header loop.  main.py also sets [x_payment_sent] there, a flag it
    never reads. *)
Definition print_response_headers (hs : list (string * string)) : io unit :=
  for_each hs (fun kv =>
    let (key, value) := kv in
    if header_shown key then print ("   " ++ key ++ ": " ++ header_display value)
    else ret tt).

(** [try: print(json.dumps(json.loads(content_str), indent=2))
     except: print(content_str[:500])] *)
Definition print_response_body (content_str : string) : io unit :=
  match json_pretty X content_str with
  | Some pretty => print pretty
  | None => print (char_prefix 500 content_str)
  end.

(** The status classification. *)
Definition print_verification (S : script) (status : nat) : io unit :=
  if Nat.eqb status 200 then
    print "✅ Payment verified successfully!" ;;;
    print "   (x402HttpxClient automatically handled the payment flow)" ;;;
    match S with
    | MainPy =>
        print "   - Received 402 Payment Required" ;;;
        print "   - Generated payment authorization" ;;;
        print "   - Sent request with X-PAYMENT header" ;;;
        print "   - Received 200 OK with function result"
    | TestFunctionPy => ret tt
    end
  else if Nat.eqb status 402 then
    print "⚠️  Received 402 Payment Required" ;;;
    match S with
    | MainPy =>
        print "   This means payment was not processed correctly" ;;;
        print "   Check payment requirements and wallet balance"
    | TestFunctionPy =>
        print "   Payment was not processed correctly"
    end
  else print ("⚠️  Unexpected status code: " ++ str_int status).

Definition settlement_headline : string := nl ++ "✅ Payment Settlement Confirmed:".

(** [if "X-Payment-Response" in response.headers: ... else: ...] *)
Definition print_settlement (S : script) (hs : list (string * string)) : io unit :=
  match header_lookup hs "X-Payment-Response" with
  | Some value =>
      payment_response <- of_res (decode_x_payment_response X value) ;;
      print settlement_headline ;;;
      print ("   Transaction: " ++ dict_get_default payment_response "transaction" "N/A") ;;;
      print ("   Network: " ++ dict_get_default payment_response "network" "N/A") ;;;
      print ("   Payer: " ++ dict_get_default payment_response "payer" "N/A")
  | None =>
      print (nl ++ "⚠️  No X-Payment-Response header") ;;;
      match S with
      | MainPy =>
          print "   Payment was verified but settlement header not present" ;;;
          print "   (This is normal if settlement failed but verification passed)"
      | TestFunctionPy =>
          print "   (Payment verified but settlement header not present)"
      end
  end.

(** From the status line to the verification banner. *)
Definition report_head (response : response) : io unit :=
  print ("2. Response Status: " ++ str_int (status_code response)) ;;;
  content_str <- of_res (decode (body response)) ;;
  print (nl ++ "📋 Response Headers:") ;;;
  print_response_headers (headers response) ;;;
  print (nl ++ "📦 Response Body:") ;;;
  print_response_body content_str ;;;
  print (nl ++ rep 60 "=") ;;;
  print "X-PAYMENT Header Verification:" ;;;
  print (rep 60 "=").

(** Everything after [await client.get(...)] inside the [try]. *)
Definition report (S : script) (response : response) : io unit :=
  report_head response ;;;
  print_verification S (status_code response) ;;;
  print_settlement S (headers response).
End Report.

(** [headers["Authorization"] = f"Bearer {supabase_anon_key}"] and the
    content type, when the anon key is set. *)
Definition auth_headers (supabase_anon_key : option string) : list (string * string) :=
  match supabase_anon_key with
  | Some k => if String.eqb k "" then []
              else [("Authorization", "Bearer " ++ k); ("Content-Type", "application/json")]
  | None => []
  end.

Definition unwrap (o : option string) : string :=
  match o with Some s => s | None => "" end.

(** ** main.py *)
Module Main.
Section Main.
Variable X : externals.

(** The body of the [try] in [main()], lines 63-128. *)
Definition main_try_body (base_url endpoint_path address : string)
    (hdrs : list (string * string)) : io unit :=
  print ("🌐 Making request to: " ++ endpoint_path) ;;;
  print ("📡 Base URL: " ++ base_url) ;;;
  print ("🔐 Account: " ++ address) ;;;
  print "" ;;;
  print (rep 60 "=") ;;;
  print "x402 Payment Flow:" ;;;
  print (rep 60 "=") ;;;
  print "1. Initial request (expecting 402 Payment Required)..." ;;;
  response <- http_get X base_url hdrs endpoint_path ;;
  report X MainPy response.

Definition missing_env_message : string := "Error: Missing required environment variables".

(** Running [python main.py]: the module-level code, then
    [asyncio.run(main())], which builds the client before its [try].
    Leaving the [async with] block (closing the client) is taken not to
    raise. *)
Definition main_py (env : string -> option string) : list event * termination :=
  let private_key := env "PRIVATE_KEY" in
  let base_url := env "RESOURCE_SERVER_URL" in
  let endpoint_path := env "ENDPOINT_PATH" in
  let supabase_anon_key := env "SUPABASE_ANON_KEY" in
  if negb (truthy private_key && truthy base_url && truthy endpoint_path) then
    ([Print missing_env_message], Exited 1)
  else
    let out1 := if truthy supabase_anon_key
                then [Print "Using Authorization header with Supabase anon key"] else [] in
    match account_from_key X (unwrap private_key) with
    | Raise e => (out1, Uncaught e)
    | Ok address =>
        match open_client X (unwrap base_url) (auth_headers supabase_anon_key) with
        | Raise e => ((out1 ++ [Print ("Initialized account: " ++ address)])%list, Uncaught e)
        | Ok _ =>
            let (out2, t) :=
              try_except_Exception
                (main_try_body (unwrap base_url) (unwrap endpoint_path) address
                   (auth_headers supabase_anon_key)) in
            ((out1 ++ [Print ("Initialized account: " ++ address)] ++ out2)%list, t)
        end
    end.
End Main.
End Main.

(** ** test_function.py *)
Module TestFunction.

Record function_config := mk_config {
  description : string;
  default_params : dict
}.

(** Lines 29-51, in the dict's iteration order. *)
Definition FUNCTION_CONFIGS : list (string * function_config) := [
  ("toolzv4",
    mk_config "IPv4 Network Connectivity Testing Tool"
      [("target", "8.8.8.8"); ("count", "4"); ("timeout", "5000")]);
  ("url-qr-code-generator",
    mk_config "URL QR Code Generator"
      [("url", "https://example.com"); ("size", "200")]);
  ("email-validator",
    mk_config "Email Validator - Validates email address format using RFC-style patterns"
      [("email", "user@example.com")])
].

Fixpoint config_lookup (cfgs : list (string * function_config)) (name : string)
    : option function_config :=
  match cfgs with
  | [] => None
  | (n, c) :: r => if String.eqb name n then Some c else config_lookup r name
  end.

(** [function_name in FUNCTION_CONFIGS]. *)
Definition in_configs (name : string) : bool :=
  match config_lookup FUNCTION_CONFIGS name with Some _ => true | None => false end.

(** [list(FUNCTION_CONFIGS.keys())]. *)
Definition function_names : list string := map fst FUNCTION_CONFIGS.

(** [for arg in args: if '=' in arg: key, value = arg.split('=', 1);
     params[key] = value]. *)
Fixpoint collect_params (params : dict) (args : list string) : dict :=
  match args with
  | [] => params
  | arg :: r =>
      match split_eq arg with
      | Some (key, value) => collect_params (dict_set params key value) r
      | None => collect_params params r
      end
  end.

(** What [parse_args] ends in: [sys.exit(code)] after printing, or a
    function name and its parameters. *)
Inductive parse_result :=
| ParseExit (out : list event) (code : nat)
| Parsed (out : list event) (function_name : string) (params : dict).

(** Lines 71-76. *)
Definition usage_lines : list event :=
  [Print "Usage: python test_function.py <function_name> [param=value ...]";
   Print (nl ++ "Available functions:")] ++
  flat_map (fun nc =>
    [Print ("  " ++ fst nc ++ ": " ++ description (snd nc));
     Print ("    Default params: " ++ repr_dict (default_params (snd nc)))])
    FUNCTION_CONFIGS.

(** [parse_args()], lines 66-102; [args] is [sys.argv[1:]]. *)
Definition parse_args (env : string -> option string) (args : list string) : parse_result :=
  match args with
  | [] => ParseExit usage_lines 1
  | arg0 :: rest =>
      let override := env "FUNCTION_NAME" in
      let function_name := if truthy override then unwrap override else arg0 in
      if in_configs function_name then
        Parsed [] function_name
          (collect_params [] (if negb (truthy override) then rest else args))
      else if negb (truthy override) then
        ParseExit [Print ("Error: '" ++ function_name ++ "' is not a known function.");
                   Print ("Available functions: " ++ repr_list function_names)] 1
      else
        Parsed [] (unwrap override) (collect_params [] args)
  end.

(** [urllib.parse.quote_plus] on one byte: letters, digits and [_.-~]
    stay, a space becomes [+], anything else is [%XX]. *)
Definition hex_digit (n : nat) : string :=
  String (ascii_of_nat (if Nat.ltb n 10 then 48 + n else 55 + n)) EmptyString.

Definition quote_plus_char (c : ascii) : string :=
  let n := nat_of_ascii c in
  if in_range 48 57 n || in_range 65 90 n || in_range 97 122 n
     || Nat.eqb n 95 || Nat.eqb n 46 || Nat.eqb n 45 || Nat.eqb n 126
  then String c EmptyString
  else if Nat.eqb n 32 then "+"
  else "%" ++ hex_digit (n / 16) ++ hex_digit (n mod 16).

Fixpoint quote_plus (s : string) : string :=
  match s with
  | EmptyString => EmptyString
  | String c r => quote_plus_char c ++ quote_plus r
  end.

(** What [urlencode(final_params)] returns when every key and value
    encodes. *)
Definition urlencode (d : dict) : string :=
  join "&" (map (fun kv => quote_plus (fst kv) ++ "=" ++ quote_plus (snd kv)) d).

(** A lone surrogate at the head of the text (three bytes [ED A0..BF xx]):
    its code point. *)
Definition surrogate_at (s : string) : option nat :=
  match s with
  | String c0 (String c1 (String c2 _)) =>
      if Nat.eqb (nat_of_ascii c0) 237 && in_range 160 191 (nat_of_ascii c1)
      then Some (216 * 256 + (nat_of_ascii c1 - 160) * 64 + (nat_of_ascii c2 - 128))
      else None
  | _ => None
  end.

(** How many lone surrogates follow one another from the head of the text. *)
Fixpoint surrogate_run (s : string) : nat :=
  match s with
  | String c0 (String c1 (String _ r)) =>
      if Nat.eqb (nat_of_ascii c0) 237 && in_range 160 191 (nat_of_ascii c1)
      then S (surrogate_run r) else 0
  | _ => 0
  end.

(** The first lone surrogate of the text: its position in characters, the
    end of the run of surrogates it starts, and its code point. *)
Fixpoint find_surrogate (idx : nat) (s : string) : option (nat * nat * nat) :=
  match s with
  | EmptyString => None
  | String c r =>
      match surrogate_at s with
      | Some cp => Some (idx, idx + surrogate_run s, cp)
      | None => find_surrogate (if char_start c then S idx else idx) r
      end
  end.

(** [str(e)] of the [UnicodeEncodeError] that [s.encode('utf-8')] raises
    on surrogates. *)
Definition encode_error_message (start end_ cp : nat) : string :=
  if Nat.eqb end_ (S start) then
    "'utf-8' codec can't encode character '\u" ++ hex2 (cp / 256) ++ hex2 (cp mod 256)
      ++ "' in position " ++ str_int start ++ ": surrogates not allowed"
  else
    "'utf-8' codec can't encode characters in position " ++ str_int start ++ "-"
      ++ str_int (end_ - 1) ++ ": surrogates not allowed".

Definition UnicodeEncodeError (msg : string) : exn := mk_exn ExceptionClass msg.

(** [quote_plus(s)] encodes [s] with UTF-8, strictly: a lone surrogate (an
    argument whose bytes were not UTF-8) raises. *)
Definition quote_plus_checked (s : string) : res string :=
  match find_surrogate 0 s with
  | Some (start, end_, cp) => Raise (UnicodeEncodeError (encode_error_message start end_ cp))
  | None => Ok (quote_plus s)
  end.

(** The first key or value, in order, that [urlencode] cannot encode. *)
Fixpoint urlencode_error (d : dict) : option exn :=
  match d with
  | [] => None
  | (k, v) :: r =>
      match quote_plus_checked k with
      | Raise e => Some e
      | Ok _ =>
          match quote_plus_checked v with
          | Raise e => Some e
          | Ok _ => urlencode_error r
          end
      end
  end.

(** [urlencode(final_params)], line 119. *)
Definition urlencode_checked (d : dict) : res string :=
  match urlencode_error d with
  | Some e => Raise e
  | None => Ok (urlencode d)
  end.

(** [f"/functions/v1/{function_name}?{query_string}"], line 120. *)
Definition build_endpoint_path (function_name query_string : string) : string :=
  "/functions/v1/" ++ function_name ++ "?" ++ query_string.

Definition default_base_url : string := "https://xluihnzwcmxybtygewvy.supabase.co".

(** Lines 141-151. *)
Definition banner (function_name : string) (config : function_config)
    (endpoint_path base_url address : string) (final_params : dict) : list event :=
  [Print ("🧪 Testing Function: " ++ function_name);
   Print ("📝 Description: " ++ description config);
   Print ("🌐 Endpoint: " ++ endpoint_path);
   Print ("📡 Base URL: " ++ base_url);
   Print ("🔐 Account: " ++ address);
   Print ("📋 Parameters: " ++ repr_dict final_params);
   Print "";
   Print (rep 60 "=");
   Print "x402 Payment Flow:";
   Print (rep 60 "=");
   Print "1. Initial request (expecting 402 Payment Required)..."].

Section Run.
Variable X : externals.

(** The body of the [try] in [test_function()], lines 161-208. *)
Definition test_try_body (base_url : string) (hdrs : list (string * string))
    (endpoint_path : string) : io unit :=
  response <- http_get X base_url hdrs endpoint_path ;;
  report X TestFunctionPy response.

(** [asyncio.run(test_function(function_name, params))], lines 105-213.
    Leaving the [async with] block (closing the client) is taken not to
    raise. *)
Definition test_function (env : string -> option string) (function_name : string)
    (params : dict) : list event * termination :=
  match config_lookup FUNCTION_CONFIGS function_name with
  | None =>
      ([Print ("❌ Unknown function: " ++ function_name);
        Print ("Available functions: " ++ repr_list function_names)], Exited 0)
  | Some config =>
      let final_params := dict_merge (default_params config) params in
      match urlencode_checked final_params with
      | Raise e => ([], Uncaught e)
      | Ok query_string =>
      let endpoint_path := build_endpoint_path function_name query_string in
      let private_key := env "PRIVATE_KEY" in
      let base_url := or_default (env "RESOURCE_SERVER_URL") default_base_url in
      let supabase_anon_key := env "SUPABASE_ANON_KEY" in
      if negb (truthy private_key) then
        ([Print "❌ Error: PRIVATE_KEY environment variable is required";
          Print "Set it in .env file or environment"], Exited 0)
      else
        match account_from_key X (unwrap private_key) with
        | Raise e => ([], Uncaught e)
        | Ok address =>
            let out1 := banner function_name config endpoint_path base_url address
                          final_params in
            match open_client X base_url (auth_headers supabase_anon_key) with
            | Raise e => (out1, Uncaught e)
            | Ok _ =>
                let (out2, t) :=
                  try_except_Exception
                    (test_try_body base_url (auth_headers supabase_anon_key) endpoint_path) in
                ((out1 ++ out2)%list, t)
            end
        end
      end
  end.

(** Running [python test_function.py args...]. *)
Definition run_test_function (env : string -> option string) (args : list string)
    : list event * termination :=
  match parse_args env args with
  | ParseExit out code => (out, Exited code)
  | Parsed out function_name params =>
      let (out2, t) := test_function env function_name params in
      ((out ++ out2)%list, t)
  end.
End Run.
End TestFunction.

(** ** The report's fixed blocks, as printed *)

(** Printed for status 200. *)
Definition verified_block (S : script) : list event :=
  [Print "✅ Payment verified successfully!";
   Print "   (x402HttpxClient automatically handled the payment flow)"] ++
  match S with
  | MainPy =>
      [Print "   - Received 402 Payment Required";
       Print "   - Generated payment authorization";
       Print "   - Sent request with X-PAYMENT header";
       Print "   - Received 200 OK with function result"]
  | TestFunctionPy => []
  end.

(** Printed for status 402. *)
Definition not_processed_block (S : script) : list event :=
  Print "⚠️  Received 402 Payment Required" ::
  match S with
  | MainPy =>
      [Print "   This means payment was not processed correctly";
       Print "   Check payment requirements and wallet balance"]
  | TestFunctionPy => [Print "   Payment was not processed correctly"]
  end.

(** Printed when the settlement header is missing. *)
Definition missing_settlement_block (S : script) : list event :=
  Print (nl ++ "⚠️  No X-Payment-Response header") ::
  match S with
  | MainPy =>
      [Print "   Payment was verified but settlement header not present";
       Print "   (This is normal if settlement failed but verification passed)"]
  | TestFunctionPy => [Print "   (Payment verified but settlement header not present)"]
  end.

(** ** Concrete inputs for the examples *)

Definition demo_env (k : string) : option string :=
  if String.eqb k "PRIVATE_KEY" then Some "0x4c0883a69102937d6231471b5dbb6204fe512961708279f3c6f1c5a5b4e2a1d3"
  else if String.eqb k "RESOURCE_SERVER_URL" then Some "https://example.supabase.co"
  else if String.eqb k "ENDPOINT_PATH" then Some "/functions/v1/toolzv4"
  else None.

Definition demo_settlement : dict :=
  [("transaction", "0xabc123"); ("network", "base-sepolia"); ("payer", "0x2222")].

(** A payment client that answers [answer], a body that is never JSON and
    a settlement header that decodes to [demo_settlement]. *)
Definition demo_externals (answer : res response) : externals :=
  mk_externals (fun _ _ => Ok tt) (fun _ _ _ => answer) (fun _ => None) (fun _ => Ok demo_settlement)
    (fun _ => Ok "0x1111111111111111111111111111111111111111").

(** The first bytes of a PNG file: not UTF-8. *)
Definition png_bytes : list byte := [x89; x50; x4e; x47; x0d; x0a; x1a; x0a].

Definition KeyboardInterrupt : exn := mk_exn BaseExceptionOnly "".

(** ** Helpers for stating properties of the runs *)

(** How many requests a run sends. *)
Definition count_gets (l : list event) : nat := length (filter is_http_get l).

(** Every character of [s] satisfies [p]. *)
Fixpoint all_chars (p : ascii -> bool) (s : string) : bool :=
  match s with
  | EmptyString => true
  | String c r => p c && all_chars p r
  end.

(** The characters [quote_plus] leaves as they are. *)
Definition url_safe_char (c : ascii) : bool :=
  let n := nat_of_ascii c in
  in_range 48 57 n || in_range 65 90 n || in_range 97 122 n
  || Nat.eqb n 95 || Nat.eqb n 46 || Nat.eqb n 45 || Nat.eqb n 126.

(** What [quote_plus] can output. *)
Definition quoted_char (c : ascii) : bool :=
  url_safe_char c || Ascii.eqb c "%" || Ascii.eqb c "+".

(** The value the last [key=value] token for [key] gives, if any. *)
Fixpoint last_param (key : string) (args : list string) : option string :=
  match args with
  | [] => None
  | arg :: r =>
      match last_param key r with
      | Some v => Some v
      | None =>
          match split_eq arg with
          | Some (k, v) => if String.eqb k key then Some v else None
          | None => None
          end
      end
  end.

(** * Properties *)

(** ** Facts about the output monad *)

Lemma bind_ok {A B} (m : io A) (f : A -> io B) (a : A) :
  snd m = Ok a -> bind m f = ((fst m ++ fst (f a))%list, snd (f a)).
Proof. destruct m as [out r]; simpl; intros ->; destruct (f a); reflexivity. Qed.

Lemma bind_raise {A B} (m : io A) (f : A -> io B) (e : exn) :
  snd m = Raise e -> bind m f = (fst m, Raise e).
Proof. destruct m as [out r]; simpl; intros ->; reflexivity. Qed.

Lemma bind_out_prefix {A B} (m : io A) (f : A -> io B) :
  exists rest, fst (bind m f) = (fst m ++ rest)%list.
Proof.
  destruct m as [out [a|e]]; simpl.
  - destruct (f a) as [o r]; simpl; eauto.
  - exists []; now rewrite app_nil_r.
Qed.

Lemma try_out_prefix (m : io unit) :
  exists rest, fst (try_except_Exception m) = (fst m ++ rest)%list.
Proof.
  destruct m as [out [[]|e]]; simpl.
  - exists []; now rewrite app_nil_r.
  - destruct (is_Exception e); simpl; eauto.
    exists []; now rewrite app_nil_r.
Qed.

Lemma truthy_some (s : string) : s <> "" -> truthy (Some s) = true.
Proof.
  intros H; simpl; apply negb_true_iff, String.eqb_neq; exact H.
Qed.

Module TestFunctionFacts.
Import TestFunction.

Lemma in_configs_lookup (name : string) :
  in_configs name = false -> config_lookup FUNCTION_CONFIGS name = None.
Proof. unfold in_configs; destruct (config_lookup FUNCTION_CONFIGS name); congruence. Qed.

Lemma try_run_keeps_body_output (m : io unit) (ev : event) :
  In ev (fst m) -> In ev (fst (try_except_Exception m)).
Proof.
  intros H; destruct (try_out_prefix m) as [r Hr]; rewrite Hr.
  apply in_or_app; left; exact H.
Qed.

Lemma try_body_sends_get (X : externals) (base_url : string)
    (hdrs : list (string * string)) (endpoint_path : string) :
  In (HttpGet base_url endpoint_path) (fst (test_try_body X base_url hdrs endpoint_path)).
Proof.
  unfold test_try_body.
  destruct (bind_out_prefix (http_get X base_url hdrs endpoint_path)
              (fun response => report X TestFunctionPy response)) as [r Hr].
  rewrite Hr; simpl; left; reflexivity.
Qed.

(** Past [parse_args], the registry lookup, [urlencode], the private-key
    check and the client's creation, the run prints the banner and then
    whatever the [try] prints. *)
Lemma run_parsed (X : externals) (env : string -> option string) (args : list string)
    (function_name : string) (params : dict) (config : function_config)
    (query_string address : string) :
  parse_args env args = Parsed [] function_name params ->
  config_lookup FUNCTION_CONFIGS function_name = Some config ->
  urlencode_checked (dict_merge (default_params config) params) = Ok query_string ->
  truthy (env "PRIVATE_KEY") = true ->
  account_from_key X (unwrap (env "PRIVATE_KEY")) = Ok address ->
  open_client X (or_default (env "RESOURCE_SERVER_URL") default_base_url)
    (auth_headers (env "SUPABASE_ANON_KEY")) = Ok tt ->
  let final_params := dict_merge (default_params config) params in
  let endpoint_path := build_endpoint_path function_name query_string in
  let base_url := or_default (env "RESOURCE_SERVER_URL") default_base_url in
  let m := test_try_body X base_url (auth_headers (env "SUPABASE_ANON_KEY")) endpoint_path in
  run_test_function X env args
    = ((banner function_name config endpoint_path base_url address final_params
        ++ fst (try_except_Exception m))%list,
       snd (try_except_Exception m)).
Proof.
  intros Hparse Hcfg Hq Hpk Hacc Hopen; cbv zeta.
  unfold run_test_function; rewrite Hparse.
  unfold test_function; rewrite Hcfg; cbv zeta; rewrite Hq; cbv zeta.
  rewrite Hpk; cbn [negb]; rewrite Hacc, Hopen.
  destruct (try_except_Exception _); reflexivity.
Qed.


Lemma urlencode_checked_ok (d : dict) (q : string) :
  urlencode_checked d = Ok q -> q = urlencode d.
Proof. unfold urlencode_checked; destruct (urlencode_error d); congruence. Qed.
End TestFunctionFacts.

(** ** C1 *)

(** C1: both scripts' [custom_payment_selector] return what the library's
    default selector returns on the same requirements, scheme filter and
    max value with the network filter ["base"]; so the caller's network
    filter never changes the result. *)
Theorem custom_payment_selector_spec :
  forall (Req MaxValue Sel : Type)
    (dflt : list Req -> option string -> option string -> option MaxValue -> Sel)
    (accepts : list Req) (network_filter scheme_filter : option string)
    (max_value : option MaxValue),
    custom_payment_selector_main dflt accepts network_filter scheme_filter max_value
      = dflt accepts (Some "base") scheme_filter max_value /\
    custom_payment_selector_test dflt accepts network_filter scheme_filter max_value
      = dflt accepts (Some "base") scheme_filter max_value /\
    (forall other : option string,
       custom_payment_selector_main dflt accepts other scheme_filter max_value
         = custom_payment_selector_main dflt accepts network_filter scheme_filter max_value /\
       custom_payment_selector_test dflt accepts other scheme_filter max_value
         = custom_payment_selector_test dflt accepts network_filter scheme_filter max_value).
Proof.
  intros; repeat split; reflexivity.
Qed.

(** ** C9 *)

(** C9: [python test_function.py] with no arguments prints the usage text,
    which lists every registered function with its description and its
    default parameters, sends no request and exits with status 1. *)
Theorem no_arguments_prints_registry :
  forall (X : externals) (env : string -> option string),
    TestFunction.run_test_function X env [] = (TestFunction.usage_lines, Exited 1) /\
    Forall (fun ev => is_http_get ev = false) TestFunction.usage_lines /\
    Forall (fun nc =>
      In (Print ("  " ++ fst nc ++ ": " ++ TestFunction.description (snd nc)))
         TestFunction.usage_lines /\
      In (Print ("    Default params: " ++ repr_dict (TestFunction.default_params (snd nc))))
         TestFunction.usage_lines)
      TestFunction.FUNCTION_CONFIGS.
Proof.
  intros X env; split; [reflexivity|split].
  - vm_compute; repeat constructor.
  - unfold TestFunction.FUNCTION_CONFIGS.
    repeat (apply Forall_cons;
            [split; vm_compute; repeat (first [left; reflexivity | right]) |]).
    apply Forall_nil.
Qed.

(** ** C10 *)

(** C10: with [FUNCTION_NAME] set to a non-empty name that is not
    registered and at least one argument, [parse_args] accepts the name and
    reads every argument as a [key=value] parameter; [test_function] then
    prints the unknown-function error and returns, so the process sends no
    request and exits with status 0. *)
Theorem unknown_override_exits_zero :
  forall (X : externals) (env : string -> option string) (name : string)
    (args : list string),
    env "FUNCTION_NAME" = Some name ->
    name <> "" ->
    TestFunction.in_configs name = false ->
    args <> [] ->
    TestFunction.parse_args env args
      = TestFunction.Parsed [] name (TestFunction.collect_params [] args) /\
    TestFunction.run_test_function X env args
      = ([Print ("❌ Unknown function: " ++ name);
          Print ("Available functions: " ++ repr_list TestFunction.function_names)],
         Exited 0).
Proof.
  intros X env name args Henv Hne Hunk Hargs.
  assert (Hparse : TestFunction.parse_args env args
                   = TestFunction.Parsed [] name (TestFunction.collect_params [] args)).
  { destruct args as [|arg0 rest]; [congruence|].
    unfold TestFunction.parse_args; rewrite Henv, (truthy_some name Hne).
    simpl unwrap; rewrite Hunk; reflexivity. }
  split; [exact Hparse|].
  unfold TestFunction.run_test_function; rewrite Hparse.
  unfold TestFunction.test_function.
  rewrite (TestFunctionFacts.in_configs_lookup name Hunk); reflexivity.
Qed.

(** ** C2 *)

(** main.py: any missing (or empty) one of [PRIVATE_KEY],
    [RESOURCE_SERVER_URL], [ENDPOINT_PATH] prints the error and exits with
    status 1 before anything else. *)
Lemma main_py_missing_env :
  forall (X : externals) (env : string -> option string),
    truthy (env "PRIVATE_KEY") && truthy (env "RESOURCE_SERVER_URL")
      && truthy (env "ENDPOINT_PATH") = false ->
    Main.main_py X env = ([Print Main.missing_env_message], Exited 1).
Proof.
  intros X env H; unfold Main.main_py; rewrite H; reflexivity.
Qed.

(** C2: test_function.py with no [PRIVATE_KEY] (nothing set in the
    environment) and the argument [toolzv4] prints the error and sends no
    request, but [test_function] only returns: the process exits with
    status 0, not 1. *)
Theorem missing_private_key_exit_status :
  forall X : externals,
    TestFunction.run_test_function X (fun _ => None) ["toolzv4"]
      = ([Print "❌ Error: PRIVATE_KEY environment variable is required";
          Print "Set it in .env file or environment"], Exited 0).
Proof. intros X; reflexivity. Qed.

(** ** C5 *)

(** C5: without a [FUNCTION_NAME] override, [toolzv4 target=1.2.3.4]
    parses to the function [toolzv4] with [{target: 1.2.3.4}], merges to
    [{target: 1.2.3.4, count: 4, timeout: 5000}] in the defaults' key order
    and encodes it to the path
    [/functions/v1/toolzv4?target=1.2.3.4&count=4&timeout=5000], which the
    GET requests once a private key is set and accepted and the client is
    created. *)
Theorem toolzv4_target_override :
  forall env : string -> option string,
    truthy (env "FUNCTION_NAME") = false ->
    TestFunction.parse_args env ["toolzv4"; "target=1.2.3.4"]
      = TestFunction.Parsed [] "toolzv4" [("target", "1.2.3.4")] /\
    (exists config,
       TestFunction.config_lookup TestFunction.FUNCTION_CONFIGS "toolzv4" = Some config /\
       dict_merge (TestFunction.default_params config) [("target", "1.2.3.4")]
         = [("target", "1.2.3.4"); ("count", "4"); ("timeout", "5000")]) /\
    TestFunction.urlencode_checked [("target", "1.2.3.4"); ("count", "4"); ("timeout", "5000")]
      = Ok "target=1.2.3.4&count=4&timeout=5000" /\
    TestFunction.build_endpoint_path "toolzv4" "target=1.2.3.4&count=4&timeout=5000"
      = "/functions/v1/toolzv4?target=1.2.3.4&count=4&timeout=5000" /\
    (forall (X : externals) (address : string),
       truthy (env "PRIVATE_KEY") = true ->
       account_from_key X (unwrap (env "PRIVATE_KEY")) = Ok address ->
       open_client X (or_default (env "RESOURCE_SERVER_URL") TestFunction.default_base_url)
         (auth_headers (env "SUPABASE_ANON_KEY")) = Ok tt ->
       In (HttpGet (or_default (env "RESOURCE_SERVER_URL") TestFunction.default_base_url)
                   "/functions/v1/toolzv4?target=1.2.3.4&count=4&timeout=5000")
          (fst (TestFunction.run_test_function X env ["toolzv4"; "target=1.2.3.4"]))).
Proof.
  intros env Hfn.
  assert (Hparse : TestFunction.parse_args env ["toolzv4"; "target=1.2.3.4"]
                   = TestFunction.Parsed [] "toolzv4" [("target", "1.2.3.4")]).
  { unfold TestFunction.parse_args; rewrite Hfn; reflexivity. }
  split; [exact Hparse|].
  split; [eexists; split; reflexivity|].
  split; [reflexivity|].
  split; [reflexivity|].
  intros X address Hpk Hacc Hopen.
  rewrite (TestFunctionFacts.run_parsed X env _ _ _ _ "target=1.2.3.4&count=4&timeout=5000"
             address Hparse eq_refl eq_refl Hpk Hacc Hopen).
  cbn [fst]; apply in_or_app; right.
  apply TestFunctionFacts.try_run_keeps_body_output, TestFunctionFacts.try_body_sends_get.
Qed.

(** ** The report *)

Lemma bind_snd_ok {A B} (m : io A) (f : A -> io B) (a : A) (b : B) :
  snd m = Ok a -> snd (f a) = Ok b -> snd (bind m f) = Ok b.
Proof. intros Hm Hf; rewrite (bind_ok m f a Hm); exact Hf. Qed.

Lemma for_each_ok {A} (l : list A) (f : A -> io unit) :
  (forall x, snd (f x) = Ok tt) -> snd (for_each l f) = Ok tt.
Proof.
  intros Hf; induction l as [|x r IH]; simpl; [reflexivity|].
  apply (bind_snd_ok _ _ tt tt (Hf x) IH).
Qed.

Lemma print_response_headers_ok (hs : list (string * string)) :
  snd (print_response_headers hs) = Ok tt.
Proof.
  apply for_each_ok; intros [k v]; simpl; destruct (header_shown k); reflexivity.
Qed.

Lemma print_response_body_ok (X : externals) (s : string) :
  snd (print_response_body X s) = Ok tt.
Proof. unfold print_response_body; destruct (json_pretty X s); reflexivity. Qed.

Lemma report_head_ok (X : externals) (r : response) (content_str : string) :
  decode (body r) = Ok content_str -> snd (report_head X r) = Ok tt.
Proof.
  intros Hdec; unfold report_head.
  eapply bind_snd_ok; [reflexivity|]; cbv beta.
  eapply bind_snd_ok; [exact Hdec|]; cbv beta.
  eapply bind_snd_ok; [reflexivity|]; cbv beta.
  eapply bind_snd_ok; [apply print_response_headers_ok|]; cbv beta.
  eapply bind_snd_ok; [reflexivity|]; cbv beta.
  eapply bind_snd_ok; [apply print_response_body_ok|]; cbv beta.
  do 2 (eapply bind_snd_ok; [reflexivity|]; cbv beta).
  reflexivity.
Qed.

Lemma print_verification_cases (S : script) (status : nat) :
  (status = 200 /\ print_verification S status = (verified_block S, Ok tt)) \/
  (status = 402 /\ print_verification S status = (not_processed_block S, Ok tt)) \/
  (status <> 200 /\ status <> 402 /\
   print_verification S status
     = ([Print ("⚠️  Unexpected status code: " ++ str_int status)], Ok tt)).
Proof.
  unfold print_verification.
  destruct (Nat.eqb_spec status 200) as [->|H200]; [left; destruct S; split; reflexivity|].
  destruct (Nat.eqb_spec status 402) as [->|H402]; [right; left; destruct S; split; reflexivity|].
  right; right; repeat split; assumption.
Qed.

(** Once the head went through, the report is the head, the status
    classification and the settlement part, in that order. *)
Lemma report_split (X : externals) (S : script) (r : response) (content_str : string) :
  decode (body r) = Ok content_str ->
  report X S r
    = ((fst (report_head X r) ++ fst (print_verification S (status_code r))
        ++ fst (print_settlement X S (headers r)))%list,
       snd (print_settlement X S (headers r))).
Proof.
  intros Hdec; unfold report.
  rewrite (bind_ok _ _ tt (report_head_ok X r content_str Hdec)); cbv beta.
  destruct (print_verification_cases S (status_code r)) as [[_ Hv]|[[_ Hv]|[_ [_ Hv]]]];
    rewrite Hv; simpl; destruct (print_settlement X S (headers r)); reflexivity.
Qed.

(** A body that does not decode stops the report after the status line. *)
Lemma decode_raise_exception (bs : list byte) (e : exn) :
  decode bs = Raise e -> is_Exception e = true.
Proof.
  unfold decode; cbv zeta.
  destruct (utf8_error 0 _ _) as [[[st en] reason]|]; [|discriminate].
  intros H; injection H as <-; reflexivity.
Qed.

Lemma report_head_raise (X : externals) (r : response) (e : exn) :
  decode (body r) = Raise e ->
  report_head X r = ([Print ("2. Response Status: " ++ str_int (status_code r))], Raise e).
Proof.
  intros H; unfold report_head.
  rewrite (bind_ok (print _) _ tt eq_refl); cbv beta.
  rewrite (bind_raise (of_res (decode (body r))) _ e H); reflexivity.
Qed.

Lemma report_raise (X : externals) (S : script) (r : response) (e : exn) :
  decode (body r) = Raise e ->
  report X S r = ([Print ("2. Response Status: " ++ str_int (status_code r))], Raise e).
Proof. intros H; unfold report; rewrite (report_head_raise X r e H); reflexivity. Qed.

Lemma try_report_raise (X : externals) (S : script) (r : response) (e : exn) :
  decode (body r) = Raise e ->
  try_except_Exception (report X S r)
    = ([Print ("2. Response Status: " ++ str_int (status_code r));
        Print (nl ++ "❌ Error occurred: " ++ exn_msg e); PrintTraceback e], Exited 0).
Proof.
  intros H; rewrite (report_raise X S r e H); unfold try_except_Exception.
  rewrite (decode_raise_exception _ e H); reflexivity.
Qed.

(** ** C7 *)

(** C7 (as amended): for a response whose body decodes as UTF-8, the report
    prints the classification block chosen by the status code alone: the
    verified block for 200, the not-processed block for 402 and the
    unexpected-status line otherwise.  When decoding the body raises, the
    error is an [Exception]: the report stops after the status line, with
    no classification, and the handler prints the error and the stack
    trace, the process then exiting with status 0. *)
Theorem report_classifies_by_status :
  forall (X : externals) (S : script) (r : response),
    (forall content_str : string,
       decode (body r) = Ok content_str ->
       (exists pre post,
          fst (report X S r) = (pre ++ fst (print_verification S (status_code r)) ++ post)%list) /\
       ((status_code r = 200 /\ print_verification S (status_code r) = (verified_block S, Ok tt)) \/
        (status_code r = 402 /\ print_verification S (status_code r) = (not_processed_block S, Ok tt)) \/
        (status_code r <> 200 /\ status_code r <> 402 /\
         print_verification S (status_code r)
           = ([Print ("⚠️  Unexpected status code: " ++ str_int (status_code r))], Ok tt)))) /\
    (forall e : exn,
       decode (body r) = Raise e ->
       is_Exception e = true /\
       report X S r = ([Print ("2. Response Status: " ++ str_int (status_code r))], Raise e) /\
       try_except_Exception (report X S r)
         = ([Print ("2. Response Status: " ++ str_int (status_code r));
             Print (nl ++ "❌ Error occurred: " ++ exn_msg e); PrintTraceback e], Exited 0)).
Proof.
  intros X S r; split.
  - intros content_str Hdec; split.
    + rewrite (report_split X S r content_str Hdec); simpl fst; eauto.
    + apply print_verification_cases.
  - intros e Hdec; split; [exact (decode_raise_exception _ e Hdec)|split].
    + exact (report_raise X S r e Hdec).
    + exact (try_report_raise X S r e Hdec).
Qed.

(** C7 refuted: a 200 response whose body is binary (a PNG) makes
    [content.decode()] raise before the classification, so main.py prints
    none of the three classifications (the error handler runs instead). *)
Lemma binary_body_skips_classification :
  let out := fst (Main.main_py (demo_externals (Ok (mk_response 200 [] png_bytes))) demo_env) in
  ~ In (Print "✅ Payment verified successfully!") out /\
  ~ In (Print "⚠️  Received 402 Payment Required") out /\
  ~ In (Print ("⚠️  Unexpected status code: " ++ str_int 200)) out.
Proof. vm_compute; repeat split; intuition discriminate. Qed.

(** ** C3 *)

Lemma print_settlement_missing (X : externals) (S : script) (hs : list (string * string)) :
  header_lookup hs "X-Payment-Response" = None ->
  print_settlement X S hs = (missing_settlement_block S, Ok tt).
Proof. intros H; unfold print_settlement; rewrite H; destruct S; reflexivity. Qed.

Lemma print_settlement_present (X : externals) (S : script) (hs : list (string * string))
    (value : string) (payment_response : dict) :
  header_lookup hs "X-Payment-Response" = Some value ->
  decode_x_payment_response X value = Ok payment_response ->
  print_settlement X S hs
    = ([Print settlement_headline;
        Print ("   Transaction: " ++ dict_get_default payment_response "transaction" "N/A");
        Print ("   Network: " ++ dict_get_default payment_response "network" "N/A");
        Print ("   Payer: " ++ dict_get_default payment_response "payer" "N/A")], Ok tt).
Proof. intros H Hd; unfold print_settlement; rewrite H; simpl; rewrite Hd; reflexivity. Qed.

(** C3 (as amended): for a 402 response whose body decodes as UTF-8, the
    report prints the not-processed block; the settlement part after it
    does not look at the status: without an [X-Payment-Response] header it
    prints the missing-header note and no settlement block, with one that
    decodes it prints the settlement confirmation block. *)
Theorem status_402_report :
  forall (X : externals) (S : script) (r : response) (content_str : string),
    status_code r = 402 ->
    decode (body r) = Ok content_str ->
    report X S r
      = ((fst (report_head X r) ++ not_processed_block S
          ++ fst (print_settlement X S (headers r)))%list,
         snd (print_settlement X S (headers r))) /\
    (header_lookup (headers r) "X-Payment-Response" = None ->
     print_settlement X S (headers r) = (missing_settlement_block S, Ok tt)) /\
    (forall (value : string) (payment_response : dict),
       header_lookup (headers r) "X-Payment-Response" = Some value ->
       decode_x_payment_response X value = Ok payment_response ->
       fst (print_settlement X S (headers r))
         = [Print settlement_headline;
            Print ("   Transaction: " ++ dict_get_default payment_response "transaction" "N/A");
            Print ("   Network: " ++ dict_get_default payment_response "network" "N/A");
            Print ("   Payer: " ++ dict_get_default payment_response "payer" "N/A")]).
Proof.
  intros X S r content_str H402 Hdec; split; [|split].
  - rewrite (report_split X S r content_str Hdec), H402; destruct S; reflexivity.
  - apply print_settlement_missing.
  - intros value pr Hh Hd; rewrite (print_settlement_present X S _ value pr Hh Hd); reflexivity.
Qed.

(** C3 refuted: a 402 response that carries an [X-Payment-Response] header
    gets both the 402 message and a settlement confirmation block. *)
Lemma settlement_block_on_402 :
  let out := fst (Main.main_py
                    (demo_externals (Ok (mk_response 402 [("x-payment-response", "eyJ0eCI6MX0=")]
                                           (list_byte_of_string "{}"))))
                    demo_env) in
  In (Print "⚠️  Received 402 Payment Required") out /\ In (Print settlement_headline) out.
Proof. vm_compute; split; repeat (first [left; reflexivity | right]). Qed.

(** ** C8 *)

Lemma settlement_headline_not_status (n : string) :
  Print ("2. Response Status: " ++ n) <> Print settlement_headline.
Proof. discriminate. Qed.

Lemma settlement_headline_not_error (m : string) :
  Print (nl ++ "❌ Error occurred: " ++ m) <> Print settlement_headline.
Proof. intros H; injection H; cbn; discriminate. Qed.

(** C8 (as amended): for a 200 response whose body decodes as UTF-8 and
    whose [X-Payment-Response] header decodes, the report ends with the
    settlement block showing the decoded transaction, network and payer,
    ["N/A"] for a field the decoded dict lacks.  When decoding the body
    raises, no settlement block is printed. *)
Theorem settlement_fields_reported :
  forall (X : externals) (S : script) (r : response),
    (forall (content_str value : string) (payment_response : dict),
       status_code r = 200 ->
       decode (body r) = Ok content_str ->
       header_lookup (headers r) "X-Payment-Response" = Some value ->
       decode_x_payment_response X value = Ok payment_response ->
       let field k := match dict_get payment_response k with Some v => v | None => "N/A" end in
       report X S r
         = ((fst (report_head X r) ++ verified_block S ++
             [Print settlement_headline;
              Print ("   Transaction: " ++ field "transaction");
              Print ("   Network: " ++ field "network");
              Print ("   Payer: " ++ field "payer")])%list, Ok tt)) /\
    (forall e : exn,
       decode (body r) = Raise e ->
       ~ In (Print settlement_headline) (fst (try_except_Exception (report X S r)))).
Proof.
  intros X S r; split.
  - intros content_str value pr H200 Hdec Hh Hd field.
    rewrite (report_split X S r content_str Hdec), H200.
    rewrite (print_settlement_present X S _ value pr Hh Hd).
    destruct S; reflexivity.
  - intros e Hdec; rewrite (try_report_raise X S r e Hdec); cbn [fst].
    intros [H|[H|[H|[]]]].
    + exact (settlement_headline_not_status _ H).
    + exact (settlement_headline_not_error _ H).
    + discriminate H.
Qed.

(** C8 refuted: a 200 response with a well-formed settlement header but a
    binary body never reaches the settlement block. *)
Lemma binary_body_skips_settlement :
  let out := fst (Main.main_py
                    (demo_externals (Ok (mk_response 200 [("X-Payment-Response", "eyJ0eCI6MX0=")]
                                           png_bytes)))
                    demo_env) in
  ~ In (Print settlement_headline) out /\
  In (Print (nl ++ "❌ Error occurred: "
             ++ "'utf-8' codec can't decode byte 0x89 in position 0: invalid start byte")) out.
Proof. vm_compute; split; [intuition discriminate|repeat (first [left; reflexivity | right])]. Qed.

(** ** C4 *)

Lemma prefix_spec (p s : string) : prefix p s = true <-> exists rest, s = p ++ rest.
Proof.
  revert p; induction s as [|d s IH]; intros p; destruct p as [|c p]; simpl.
  - split; [intros _; exists ""; reflexivity | reflexivity].
  - split; [discriminate | intros [rest H]; discriminate].
  - split; [intros _; exists (String d s); reflexivity | reflexivity].
  - destruct (ascii_dec c d) as [<-|Hcd].
    + rewrite IH; split; intros [rest H]; exists rest;
        [now rewrite H | injection H as H; exact H].
    + split; [discriminate | intros [rest H]; injection H as Hdc _; congruence].
Qed.

Lemma contains_spec (needle hay : string) :
  contains needle hay = true <-> exists a b, hay = a ++ needle ++ b.
Proof.
  induction hay as [|c hay IH].
  - change (contains needle "") with (prefix needle "" || false).
    rewrite orb_true_iff, prefix_spec; split.
    + intros [[rest H]|H]; [exists "", rest; exact H | discriminate].
    + intros [a [b H]]; left; exists b; destruct a; [exact H | discriminate].
  - change (contains needle (String c hay)) with (prefix needle (String c hay) || contains needle hay).
    rewrite orb_true_iff, prefix_spec, IH; split.
    + intros [[rest H]|[a [b H]]].
      * exists "", rest; exact H.
      * exists (String c a), b; rewrite H; reflexivity.
    + intros [a [b H]]; destruct a as [|d a].
      * left; exists b; exact H.
      * right; injection H; intros H' _; exists a, b; exact H'.
Qed.

Lemma char_prefix_length (n : nat) (s : string) :
  char_length (char_prefix n s) = Nat.min n (char_length s).
Proof.
  revert n; induction s as [|c s IH]; intros n; simpl; [now destruct n|].
  destruct (char_start c) eqn:Hc; simpl.
  - destruct n as [|n]; simpl; [reflexivity | rewrite Hc, IH; reflexivity].
  - rewrite Hc; apply IH.
Qed.

(** [s[:n]] stops at a character boundary: what is left is empty or
    starts with a character. *)
Lemma char_prefix_split (n : nat) (s : string) :
  exists rest, s = char_prefix n s ++ rest /\
    (rest = "" \/ exists c r, rest = String c r /\ char_start c = true).
Proof.
  revert n; induction s as [|c s IH]; intros n.
  - exists ""; split; [reflexivity | left; reflexivity].
  - simpl; destruct (char_start c) eqn:Hc.
    + destruct n as [|n].
      * exists (String c s); split; [reflexivity | right; exists c, s; split; [reflexivity | exact Hc]].
      * destruct (IH n) as [rest [Hr Hb]]; exists rest.
        split; [simpl; rewrite <- Hr; reflexivity | exact Hb].
    + destruct (IH n) as [rest [Hr Hb]]; exists rest.
      split; [simpl; rewrite <- Hr; reflexivity | exact Hb].
Qed.

Lemma print_response_headers_eq (hs : list (string * string)) :
  print_response_headers hs
    = (map (fun kv => Print ("   " ++ fst kv ++ ": " ++ header_display (snd kv)))
           (filter (fun kv => header_shown (fst kv)) hs), Ok tt).
Proof.
  induction hs as [|[k v] r IH]; [reflexivity|].
  unfold print_response_headers in *; cbn [for_each].
  destruct (header_shown k) eqn:Hk.
  - rewrite (bind_ok (print _) _ tt eq_refl); cbv beta; rewrite IH; simpl; rewrite Hk; reflexivity.
  - rewrite (bind_ok (ret tt) _ tt eq_refl); cbv beta; rewrite IH; simpl; rewrite Hk; reflexivity.
Qed.

Lemma report_head_headers (X : externals) (r : response) (content_str : string) :
  decode (body r) = Ok content_str ->
  exists post,
    fst (report_head X r)
      = ([Print ("2. Response Status: " ++ str_int (status_code r));
          Print (nl ++ "📋 Response Headers:")]
         ++ map (fun kv => Print ("   " ++ fst kv ++ ": " ++ header_display (snd kv)))
                (filter (fun kv => header_shown (fst kv)) (headers r))
         ++ Print (nl ++ "📦 Response Body:") :: post)%list.
Proof.
  intros Hdec; unfold report_head.
  rewrite (bind_ok (print _) _ tt eq_refl); cbv beta.
  rewrite (bind_ok (of_res (decode (body r))) _ content_str Hdec); cbv beta.
  rewrite (bind_ok (print _) _ tt eq_refl); cbv beta.
  rewrite (bind_ok (print_response_headers (headers r)) _ tt (print_response_headers_ok _)); cbv beta.
  rewrite print_response_headers_eq.
  match goal with |- context [fst (bind (print ?s) ?f)] =>
    destruct (bind_out_prefix (print s) f) as [post Hp]; rewrite Hp end.
  exists post; reflexivity.
Qed.

(** C4 (as amended): for a response whose body decodes as UTF-8, the
    report lists right after the status line and the headers title, in
    iteration order, exactly the headers whose lower-cased name contains
    ["payment"] or contains ["x-"] anywhere, each as ["   name: value"],
    then goes on to the body; a value of more than 100 characters is
    shown as its first 100 characters followed by ["..."].  When decoding
    the body raises, the report stops after the status line and lists no
    header. *)
Theorem response_headers_listed :
  forall (X : externals) (S : script) (r : response),
    (forall content_str : string,
       decode (body r) = Ok content_str ->
       exists post,
         fst (report X S r)
           = ([Print ("2. Response Status: " ++ str_int (status_code r));
               Print (nl ++ "📋 Response Headers:")]
              ++ map (fun kv => Print ("   " ++ fst kv ++ ": " ++ header_display (snd kv)))
                     (filter (fun kv => header_shown (fst kv)) (headers r))
              ++ Print (nl ++ "📦 Response Body:") :: post)%list) /\
    (forall e : exn,
       decode (body r) = Raise e ->
       fst (report X S r) = [Print ("2. Response Status: " ++ str_int (status_code r))]) /\
    (forall hs : list (string * string),
       print_response_headers hs
         = (map (fun kv => Print ("   " ++ fst kv ++ ": " ++ header_display (snd kv)))
                (filter (fun kv => header_shown (fst kv)) hs), Ok tt)) /\
    (forall key : string,
       header_shown key = true <->
       (exists a b, lower key = a ++ "payment" ++ b) \/ (exists a b, lower key = a ++ "x-" ++ b)) /\
    (forall value : string, char_length value <= 100 -> header_display value = value) /\
    (forall value : string, 100 < char_length value ->
       exists rest,
         header_display value = char_prefix 100 value ++ "..." /\
         char_length (char_prefix 100 value) = 100 /\
         value = char_prefix 100 value ++ rest /\
         (rest = "" \/ exists c r, rest = String c r /\ char_start c = true)).
Proof.
  intros X S r; split; [|split; [|split; [|split; [|split]]]].
  - intros content_str Hdec.
    destruct (report_head_headers X r content_str Hdec) as [post Hp].
    rewrite (report_split X S r content_str Hdec); cbn [fst]; rewrite Hp.
    exists (post ++ fst (print_verification S (status_code r))
              ++ fst (print_settlement X S (headers r)))%list.
    rewrite <- !app_assoc; reflexivity.
  - intros e Hdec; rewrite (report_raise X S r e Hdec); reflexivity.
  - apply print_response_headers_eq.
  - intros key; unfold header_shown; rewrite orb_true_iff, !contains_spec; reflexivity.
  - intros value Hv; unfold header_display.
    destruct (Nat.ltb_spec 100 (char_length value)); [lia | reflexivity].
  - intros value Hv; destruct (char_prefix_split 100 value) as [rest [Hr Hb]].
    exists rest; unfold header_display.
    destruct (Nat.ltb_spec 100 (char_length value)) as [_|]; [|lia].
    split; [reflexivity | split; [rewrite char_prefix_length; lia | split; assumption]].
Qed.

(** C4 refuted: [Max-Forwards] neither contains ["payment"] nor starts
    with ["x-"], yet it is listed, since ["max-forwards"] contains
    ["x-"]. *)
Lemma max_forwards_header_listed :
  print_response_headers [("Max-Forwards", "10")] = ([Print "   Max-Forwards: 10"], Ok tt) /\
  contains "payment" (lower "Max-Forwards") = false /\
  startswith (lower "Max-Forwards") "x-" = false.
Proof. vm_compute; repeat split. Qed.

(** ** C6 *)






(** ** Witnesses: the hypotheses above hold on concrete inputs *)

Lemma toolzv4_target_override_witness :
  truthy (demo_env "FUNCTION_NAME") = false /\
  TestFunction.parse_args demo_env ["toolzv4"; "target=1.2.3.4"]
    = TestFunction.Parsed [] "toolzv4" [("target", "1.2.3.4")].
Proof.
  split; [reflexivity|].
  exact (proj1 (toolzv4_target_override demo_env eq_refl)).
Defined.

Lemma unknown_override_exits_zero_witness :
  let env := fun k => if String.eqb k "FUNCTION_NAME" then Some "ping" else None in
  env "FUNCTION_NAME" = Some "ping" /\ "ping" <> "" /\
  TestFunction.in_configs "ping" = false /\ ["target=1.1.1.1"] <> [] /\
  TestFunction.run_test_function (demo_externals (Raise KeyboardInterrupt)) env ["target=1.1.1.1"]
    = ([Print ("❌ Unknown function: " ++ "ping");
        Print ("Available functions: " ++ repr_list TestFunction.function_names)], Exited 0).
Proof.
  intros env; split; [reflexivity|split; [discriminate|split; [reflexivity|split; [discriminate|]]]].
  exact (proj2 (unknown_override_exits_zero (demo_externals (Raise KeyboardInterrupt)) env "ping"
                  ["target=1.1.1.1"] eq_refl ltac:(discriminate) eq_refl ltac:(discriminate))).
Defined.

Lemma report_classifies_by_status_witness :
  let X := demo_externals (Raise KeyboardInterrupt) in
  let msg := "'utf-8' codec can't decode byte 0x89 in position 0: invalid start byte" in
  decode (list_byte_of_string "{}") = Ok "{}" /\
  (exists pre post,
     fst (report X MainPy (mk_response 200 [] (list_byte_of_string "{}")))
       = (pre ++ verified_block MainPy ++ post)%list) /\
  decode png_bytes = Raise (UnicodeDecodeError msg) /\
  try_except_Exception (report X MainPy (mk_response 200 [] png_bytes))
    = ([Print ("2. Response Status: " ++ "200"); Print (nl ++ "❌ Error occurred: " ++ msg);
        PrintTraceback (UnicodeDecodeError msg)], Exited 0).
Proof.
  intros X msg; split; [reflexivity|split; [|split; [vm_compute; reflexivity|]]].
  - exact (proj1 (proj1 (report_classifies_by_status X MainPy
                           (mk_response 200 [] (list_byte_of_string "{}"))) "{}" eq_refl)).
  - exact (proj2 (proj2 (proj2 (report_classifies_by_status X MainPy (mk_response 200 [] png_bytes))
                           (UnicodeDecodeError msg) eq_refl))).
Defined.

Lemma status_402_report_witness :
  decode (list_byte_of_string "{}") = Ok "{}" /\
  header_lookup [] "X-Payment-Response" = None /\
  print_settlement (demo_externals (Raise KeyboardInterrupt)) TestFunctionPy []
    = (missing_settlement_block TestFunctionPy, Ok tt).
Proof.
  split; [reflexivity|split; [reflexivity|]].
  exact (proj1 (proj2 (status_402_report (demo_externals (Raise KeyboardInterrupt)) TestFunctionPy
                         (mk_response 402 [] (list_byte_of_string "{}")) "{}" eq_refl eq_refl))
               eq_refl).
Defined.

Lemma settlement_fields_reported_witness :
  let r := mk_response 200 [("x-payment-response", "eyJ0eCI6MX0=")] (list_byte_of_string "{}") in
  let X := demo_externals (Ok r) in
  let png := mk_response 200 [("x-payment-response", "eyJ0eCI6MX0=")] png_bytes in
  let msg := "'utf-8' codec can't decode byte 0x89 in position 0: invalid start byte" in
  decode (body r) = Ok "{}" /\
  header_lookup (headers r) "X-Payment-Response" = Some "eyJ0eCI6MX0=" /\
  decode_x_payment_response X "eyJ0eCI6MX0=" = Ok demo_settlement /\
  snd (report X MainPy r) = Ok tt /\
  decode (body png) = Raise (UnicodeDecodeError msg) /\
  ~ In (Print settlement_headline) (fst (try_except_Exception (report X MainPy png))).
Proof.
  intros r X png msg.
  split; [reflexivity|split; [reflexivity|split; [reflexivity|split; [|split; [vm_compute; reflexivity|]]]]].
  - rewrite (proj1 (settlement_fields_reported X MainPy r) "{}" "eyJ0eCI6MX0=" demo_settlement
               eq_refl eq_refl eq_refl eq_refl).
    reflexivity.
  - exact (proj2 (settlement_fields_reported X MainPy png) (UnicodeDecodeError msg) eq_refl).
Defined.

(** * Further properties of the scripts *)

(** ** [parse_args] *)

(** With [FUNCTION_NAME] set to a registered name, every argument, the
    first one included, is read as a [key=value] parameter. *)
Theorem parse_args_known_override :
  forall (env : string -> option string) (name : string) (args : list string),
    env "FUNCTION_NAME" = Some name ->
    name <> "" ->
    TestFunction.in_configs name = true ->
    args <> [] ->
    TestFunction.parse_args env args
      = TestFunction.Parsed [] name (TestFunction.collect_params [] args).
Proof.
  intros env name args Henv Hne Hin Hargs.
  destruct args as [|arg0 rest]; [congruence|].
  unfold TestFunction.parse_args; rewrite Henv, (truthy_some name Hne).
  simpl unwrap; rewrite Hin; reflexivity.
Qed.

(** Without the override, a registered first argument names the function
    and only the arguments after it are read as parameters. *)
Theorem parse_args_positional :
  forall (env : string -> option string) (arg0 : string) (rest : list string),
    truthy (env "FUNCTION_NAME") = false ->
    TestFunction.in_configs arg0 = true ->
    TestFunction.parse_args env (arg0 :: rest)
      = TestFunction.Parsed [] arg0 (TestFunction.collect_params [] rest).
Proof.
  intros env arg0 rest Henv Hin.
  unfold TestFunction.parse_args; rewrite Henv, Hin; reflexivity.
Qed.

(** Without the override, an unregistered first argument prints the error
    and the registered names and exits with status 1. *)
Theorem parse_args_unknown_exits_one :
  forall (env : string -> option string) (arg0 : string) (rest : list string),
    truthy (env "FUNCTION_NAME") = false ->
    TestFunction.in_configs arg0 = false ->
    TestFunction.parse_args env (arg0 :: rest)
      = TestFunction.ParseExit
          [Print ("Error: '" ++ arg0 ++ "' is not a known function.");
           Print ("Available functions: " ++ repr_list TestFunction.function_names)] 1.
Proof.
  intros env arg0 rest Henv Hin.
  unfold TestFunction.parse_args; rewrite Henv, Hin; reflexivity.
Qed.

(** ** [arg.split('=', 1)] *)

Lemma prefix_empty (s : string) : prefix "" s = true.
Proof. destruct s; reflexivity. Qed.

Lemma contains_eq_cons (c : ascii) (r : string) :
  contains "=" (String c r) = Ascii.eqb c "=" || contains "=" r.
Proof.
  change (contains "=" (String c r)) with (prefix "=" (String c r) || contains "=" r).
  cbn [prefix]; destruct (ascii_dec "=" c) as [<-|Hc].
  - rewrite prefix_empty; reflexivity.
  - destruct (Ascii.eqb_spec c "="); [congruence | reflexivity].
Qed.

(** [split_eq] cuts at the first ['=']: the key never holds one, the
    value keeps any later ones, and the pieces put back together give the
    argument; an argument without ['='] gives nothing. *)
Theorem split_eq_spec :
  (forall s k v, split_eq s = Some (k, v) -> s = k ++ "=" ++ v /\ contains "=" k = false) /\
  (forall k v, contains "=" k = false -> split_eq (k ++ "=" ++ v) = Some (k, v)) /\
  (forall s, split_eq s = None <-> contains "=" s = false).
Proof.
  split; [|split].
  - intros s; induction s as [|c r IH]; intros k v H; simpl in H; [discriminate|].
    destruct (Ascii.eqb_spec c "=") as [->|Hc].
    + injection H as <- <-; split; reflexivity.
    + destruct (split_eq r) as [[k' v']|]; [|discriminate].
      injection H as <- <-; destruct (IH k' v' eq_refl) as [-> Hk'].
      split; [reflexivity|].
      rewrite contains_eq_cons, Hk'; destruct (Ascii.eqb_spec c "="); [contradiction|reflexivity].
  - intros k v; induction k as [|c k IH]; intros Hk; [reflexivity|].
    rewrite contains_eq_cons, orb_false_iff in Hk; destruct Hk as [Hc Hk].
    specialize (IH Hk); simpl in IH |- *; rewrite Hc, IH; reflexivity.
  - intros s; induction s as [|c r IH]; [split; reflexivity|].
    rewrite contains_eq_cons; simpl.
    destruct (Ascii.eqb c "="); simpl; [split; discriminate|].
    rewrite <- IH; destruct (split_eq r) as [[k v]|]; split; congruence.
Qed.

(** ** Dicts *)

Lemma dict_set_get_same (d : dict) (k v : string) : dict_get (dict_set d k v) k = Some v.
Proof.
  induction d as [|[k' v'] r IH]; simpl; [now rewrite String.eqb_refl|].
  destruct (String.eqb_spec k k') as [->|Hne]; simpl.
  - now rewrite String.eqb_refl.
  - apply String.eqb_neq in Hne; now rewrite Hne.
Qed.

Lemma dict_set_get_other (d : dict) (k v k2 : string) :
  k2 <> k -> dict_get (dict_set d k v) k2 = dict_get d k2.
Proof.
  intros Hne; induction d as [|[k' v'] r IH]; simpl.
  - apply String.eqb_neq in Hne; now rewrite Hne.
  - destruct (String.eqb_spec k k') as [<-|Hkk']; simpl.
    + apply String.eqb_neq in Hne; now rewrite Hne.
    + now rewrite IH.
Qed.

Lemma dict_set_keys (d : dict) (k v : string) :
  map fst (dict_set d k v)
    = if existsb (String.eqb k) (map fst d) then map fst d else (map fst d ++ [k])%list.
Proof.
  induction d as [|[k' v'] r IH]; simpl; [reflexivity|].
  destruct (String.eqb_spec k k') as [->|Hne]; simpl; [reflexivity|].
  rewrite IH; destruct (existsb (String.eqb k) (map fst r)); reflexivity.
Qed.

(** [d[k] = v] then [d[k]] gives [v], other keys are untouched, and the
    keys keep their order: an existing key stays in place, a new one is
    added last. *)
Theorem dict_set_spec :
  forall (d : dict) (k v : string),
    dict_get (dict_set d k v) k = Some v /\
    (forall k2, k2 <> k -> dict_get (dict_set d k v) k2 = dict_get d k2) /\
    map fst (dict_set d k v)
      = if existsb (String.eqb k) (map fst d) then map fst d else (map fst d ++ [k])%list.
Proof.
  intros d k v; split; [apply dict_set_get_same|split; [apply dict_set_get_other|]].
  apply dict_set_keys.
Qed.

Lemma dict_get_notin (d : dict) (k : string) : ~ In k (map fst d) -> dict_get d k = None.
Proof.
  induction d as [|[k' v] r IH]; simpl; intros H; [reflexivity|].
  destruct (String.eqb_spec k k') as [->|_]; [exfalso; apply H; left; reflexivity|].
  apply IH; intros Hin; apply H; right; exact Hin.
Qed.

Lemma NoDup_snoc {A} (l : list A) (x : A) : NoDup l -> ~ In x l -> NoDup (l ++ [x])%list.
Proof.
  induction l as [|y l IH]; simpl; intros Hnd Hx; [constructor; [intros []|constructor]|].
  inversion Hnd as [|? ? Hy Hl]; subst; constructor.
  - rewrite in_app_iff; intros [H|[H|[]]]; [contradiction | apply Hx; left; symmetry; exact H].
  - apply IH; [exact Hl | intros H; apply Hx; right; exact H].
Qed.

Lemma dict_set_nodup (d : dict) (k v : string) :
  NoDup (map fst d) -> NoDup (map fst (dict_set d k v)).
Proof.
  intros Hnd; rewrite dict_set_keys.
  destruct (existsb (String.eqb k) (map fst d)) eqn:E; [exact Hnd|].
  apply NoDup_snoc; [exact Hnd|].
  intros Hin; assert (existsb (String.eqb k) (map fst d) = true) as Ht
    by (apply existsb_exists; exists k; split; [exact Hin | apply String.eqb_refl]).
  congruence.
Qed.

Lemma collect_params_get (p : dict) (args : list string) (k : string) :
  dict_get (TestFunction.collect_params p args) k
    = match last_param k args with Some v => Some v | None => dict_get p k end.
Proof.
  revert p; induction args as [|a r IH]; intros p; simpl; [reflexivity|].
  destruct (split_eq a) as [[k' v']|]; rewrite IH; destruct (last_param k r); try reflexivity.
  destruct (String.eqb_spec k' k) as [->|Hne].
  - apply dict_set_get_same.
  - apply dict_set_get_other; intros ->; apply Hne; reflexivity.
Qed.

Lemma collect_params_nodup (p : dict) (args : list string) :
  NoDup (map fst p) -> NoDup (map fst (TestFunction.collect_params p args)).
Proof.
  revert p; induction args as [|a r IH]; intros p Hnd; simpl; [exact Hnd|].
  destruct (split_eq a) as [[k v]|]; apply IH; [apply dict_set_nodup|]; exact Hnd.
Qed.

(** ** [parse_args]'s [key=value] loop *)

(** After the loop a key holds the value of the last [key=value] token
    for it (tokens without ['='] are skipped), or what it held before; and
    the keys stay distinct. *)
Theorem collect_params_spec :
  (forall (p : dict) (args : list string) (k : string),
     dict_get (TestFunction.collect_params p args) k
       = match last_param k args with Some v => Some v | None => dict_get p k end) /\
  (forall (p : dict) (args : list string),
     NoDup (map fst p) -> NoDup (map fst (TestFunction.collect_params p args))).
Proof. split; [apply collect_params_get | apply collect_params_nodup]. Qed.

Lemma dict_merge_get (a b : dict) (k : string) :
  NoDup (map fst b) ->
  dict_get (dict_merge a b) k = match dict_get b k with Some v => Some v | None => dict_get a k end.
Proof.
  revert a; induction b as [|[k' v] r IH]; intros a Hnd; [reflexivity|].
  simpl in Hnd; inversion Hnd as [|? ? Hnotin Hnd']; subst.
  change (dict_merge a ((k', v) :: r)) with (dict_merge (dict_set a k' v) r).
  rewrite (IH _ Hnd'); simpl.
  destruct (String.eqb_spec k k') as [->|Hne].
  - rewrite (dict_get_notin r k' Hnotin), dict_set_get_same; reflexivity.
  - rewrite (dict_set_get_other a k' v k Hne); reflexivity.
Qed.

Lemma dict_merge_keys (a b : dict) :
  exists extra, map fst (dict_merge a b) = (map fst a ++ extra)%list.
Proof.
  revert a; induction b as [|[k v] r IH]; intros a.
  - exists []; rewrite app_nil_r; reflexivity.
  - change (dict_merge a ((k, v) :: r)) with (dict_merge (dict_set a k v) r).
    destruct (IH (dict_set a k v)) as [extra ->]; rewrite dict_set_keys.
    destruct (existsb (String.eqb k) (map fst a)).
    + exists extra; reflexivity.
    + exists (k :: extra); rewrite <- app_assoc; reflexivity.
Qed.

(** ** [{**a, **b}] *)

(** Merging a dict with distinct keys over another: a key takes its value
    from the second dict when it has one, else from the first; the first
    dict's keys come first, in their order. *)
Theorem dict_merge_spec :
  forall a b : dict,
    NoDup (map fst b) ->
    (forall k, dict_get (dict_merge a b) k
                 = match dict_get b k with Some v => Some v | None => dict_get a k end) /\
    exists extra, map fst (dict_merge a b) = (map fst a ++ extra)%list.
Proof.
  intros a b Hnd; split; [intros k; apply dict_merge_get, Hnd | apply dict_merge_keys].
Qed.

(** [final_params] of [test_function]: each key holds the value of the
    last command-line [key=value] token for it, else the registry default;
    the defaults' keys come first, in the registry's order. *)
Theorem final_params_spec :
  forall (defaults : dict) (args : list string),
    (forall k, dict_get (dict_merge defaults (TestFunction.collect_params [] args)) k
                 = match last_param k args with Some v => Some v | None => dict_get defaults k end) /\
    exists extra,
      map fst (dict_merge defaults (TestFunction.collect_params [] args))
        = (map fst defaults ++ extra)%list.
Proof.
  intros defaults args; split; [|apply dict_merge_keys].
  intros k; rewrite dict_merge_get by (apply collect_params_nodup; constructor).
  rewrite collect_params_get; destruct (last_param k args); reflexivity.
Qed.

(** ** [quote_plus] and [urlencode] *)

Lemma all_chars_app (p : ascii -> bool) (a b : string) :
  all_chars p (a ++ b) = all_chars p a && all_chars p b.
Proof. induction a as [|c a IH]; simpl; [reflexivity|]. rewrite IH, andb_assoc; reflexivity. Qed.

Lemma contains_char_cons (c0 c : ascii) (r : string) :
  contains (String c0 EmptyString) (String c r)
    = Ascii.eqb c c0 || contains (String c0 EmptyString) r.
Proof.
  change (contains (String c0 EmptyString) (String c r))
    with (prefix (String c0 EmptyString) (String c r) || contains (String c0 EmptyString) r).
  cbn [prefix]; destruct (ascii_dec c0 c) as [<-|Hc].
  - rewrite prefix_empty, Ascii.eqb_refl; reflexivity.
  - destruct (Ascii.eqb_spec c c0); [congruence | reflexivity].
Qed.

Lemma all_chars_not_contains (p : ascii -> bool) (c0 : ascii) (s : string) :
  all_chars p s = true -> p c0 = false -> contains (String c0 EmptyString) s = false.
Proof.
  induction s as [|c r IH]; intros Hs Hc0; [reflexivity|].
  simpl in Hs; apply andb_true_iff in Hs as [Hc Hr].
  rewrite contains_char_cons, (IH Hr Hc0).
  destruct (Ascii.eqb_spec c c0) as [->|]; [congruence | reflexivity].
Qed.

Lemma hex_digit_quoted (n : nat) : n < 16 -> all_chars quoted_char (TestFunction.hex_digit n) = true.
Proof.
  intros Hn; do 16 (destruct n as [|n]; [reflexivity|]); lia.
Qed.

Lemma quote_plus_char_quoted (c : ascii) : all_chars quoted_char (TestFunction.quote_plus_char c) = true.
Proof.
  unfold TestFunction.quote_plus_char.
  destruct (in_range 48 57 (nat_of_ascii c) || in_range 65 90 (nat_of_ascii c)
            || in_range 97 122 (nat_of_ascii c) || Nat.eqb (nat_of_ascii c) 95
            || Nat.eqb (nat_of_ascii c) 46 || Nat.eqb (nat_of_ascii c) 45
            || Nat.eqb (nat_of_ascii c) 126) eqn:Hsafe.
  - simpl; unfold quoted_char, url_safe_char; cbv zeta; rewrite Hsafe; reflexivity.
  - destruct (Nat.eqb (nat_of_ascii c) 32); [reflexivity|].
    pose proof (nat_ascii_bounded c) as Hb.
    rewrite !all_chars_app, !hex_digit_quoted; [reflexivity| |];
      first [apply Nat.mod_upper_bound; lia | apply Nat.Div0.div_lt_upper_bound; lia].
Qed.

Lemma quote_plus_quoted (s : string) : all_chars quoted_char (TestFunction.quote_plus s) = true.
Proof.
  induction s as [|c r IH]; [reflexivity|]; simpl.
  rewrite all_chars_app, quote_plus_char_quoted, IH; reflexivity.
Qed.

(** [quote_plus] only outputs letters, digits, [_ . - ~], ['%'] and
    ['+']: an encoded key or value never holds the ['&'] and ['='] that
    [urlencode] puts between them, nor a space. *)
Theorem quote_plus_output_chars :
  forall s : string,
    all_chars quoted_char (TestFunction.quote_plus s) = true /\
    contains "&" (TestFunction.quote_plus s) = false /\
    contains "=" (TestFunction.quote_plus s) = false /\
    contains " " (TestFunction.quote_plus s) = false.
Proof.
  intros s; pose proof (quote_plus_quoted s) as H.
  split; [exact H|].
  split; [|split]; apply (all_chars_not_contains quoted_char _ _ H); reflexivity.
Qed.

Lemma quote_plus_char_safe (c : ascii) :
  url_safe_char c = true -> TestFunction.quote_plus_char c = String c EmptyString.
Proof.
  unfold url_safe_char, TestFunction.quote_plus_char; cbv zeta; intros H; rewrite H; reflexivity.
Qed.

Lemma quote_plus_safe (s : string) :
  all_chars url_safe_char s = true -> TestFunction.quote_plus s = s.
Proof.
  induction s as [|c r IH]; intros H; [reflexivity|].
  simpl in H; apply andb_true_iff in H as [Hc Hr]; simpl.
  rewrite (quote_plus_char_safe c Hc), (IH Hr); reflexivity.
Qed.

(** Parameters made of letters, digits and [_ . - ~] only are sent as
    they are: the query is the [key=value] pairs joined by ['&']. *)
Theorem urlencode_safe_params :
  forall d : dict,
    forallb (fun kv => all_chars url_safe_char (fst kv) && all_chars url_safe_char (snd kv)) d
      = true ->
    TestFunction.urlencode d = join "&" (map (fun kv => fst kv ++ "=" ++ snd kv) d).
Proof.
  intros d H; unfold TestFunction.urlencode; f_equal.
  induction d as [|[k v] r IH]; [reflexivity|].
  simpl in H; apply andb_true_iff in H as [Hkv Hr]; apply andb_true_iff in Hkv as [Hk Hv].
  cbn [map fst snd]; rewrite (quote_plus_safe k Hk), (quote_plus_safe v Hv), (IH Hr); reflexivity.
Qed.

(** ** Reading the response body *)

(** Where the decoder stops: a non-empty span inside the data, with one of
    the decoder's three reasons. *)
Lemma utf8_error_span (n : nat) : forall (bs : list nat) (pos total st en : nat) (reason : string),
  length bs <= n -> total = pos + length bs ->
  utf8_error pos total bs = Some (st, en, reason) ->
  pos <= st /\ st < en /\ en <= total /\
  (reason = "invalid start byte" \/ reason = invalid_continuation \/ reason = end_of_data).
Proof.
  induction n as [|n IH]; intros bs pos total st en reason Hn Ht H.
  - destruct bs; [discriminate | simpl in Hn; lia].
  - destruct bs as [|b0 r0]; [discriminate|]; simpl in H.
    repeat match goal with
    | H : (if ?c then _ else _) = Some _ |- _ => destruct c
    | H : match ?l with [] => _ | _ :: _ => _ end = Some _ |- _ => destruct l
    end;
    simpl in Hn, Ht;
    match goal with
    | H : Some _ = Some _ |- _ =>
        injection H as <- <- <-; split; [lia | split; [lia | split; [lia |]]];
        first [left; reflexivity | right; left; reflexivity | right; right; reflexivity]
    | H : utf8_error ?p _ ?l = Some _ |- _ =>
        destruct (IH l p total st en reason ltac:(lia) ltac:(lia) H) as (? & ? & ? & ?);
        split; [lia | split; [lia | split; [lia | assumption]]]
    end.
Qed.

(** [response.content.decode()]: a body that is UTF-8 decodes to itself;
    otherwise the decoder stops at its first error, a non-empty span
    inside the body, and raises [UnicodeDecodeError] with CPython's
    message.  That error is an [Exception]: the report stops right after
    the status line, the handler prints the message and the stack trace
    and the process exits with status 0; no header, body, classification
    or settlement line is printed. *)
Theorem undecodable_body_report :
  forall (X : externals) (S : script) (r : response),
    (utf8_error 0 (length (body r)) (map Byte.to_nat (body r)) = None /\
     decode (body r) = Ok (string_of_list_byte (body r))) \/
    (exists (st en : nat) (reason : string),
       utf8_error 0 (length (body r)) (map Byte.to_nat (body r)) = Some (st, en, reason) /\
       st < en <= length (body r) /\
       (reason = "invalid start byte" \/ reason = invalid_continuation \/ reason = end_of_data) /\
       decode (body r)
         = Raise (UnicodeDecodeError
                    (decode_error_message (map Byte.to_nat (body r)) st en reason)) /\
       try_except_Exception (report X S r)
         = ([Print ("2. Response Status: " ++ str_int (status_code r));
             Print (nl ++ "❌ Error occurred: "
                    ++ decode_error_message (map Byte.to_nat (body r)) st en reason);
             PrintTraceback (UnicodeDecodeError
                               (decode_error_message (map Byte.to_nat (body r)) st en reason))],
            Exited 0)).
Proof.
  intros X S r.
  assert (decode (body r)
          = match utf8_error 0 (length (body r)) (map Byte.to_nat (body r)) with
            | None => Ok (string_of_list_byte (body r))
            | Some (start, end_, reason) =>
                Raise (UnicodeDecodeError
                         (decode_error_message (map Byte.to_nat (body r)) start end_ reason))
            end) as Hd by (unfold decode; rewrite length_map; reflexivity).
  destruct (utf8_error 0 (length (body r)) (map Byte.to_nat (body r)))
    as [[[st en] reason]|] eqn:He.
  - right; exists st, en, reason.
    destruct (utf8_error_span (length (map Byte.to_nat (body r))) _ 0 (length (body r)) st en reason
                (le_n _) ltac:(rewrite length_map; reflexivity) He) as (_ & Hlt & Hle & Hreason).
    split; [reflexivity | split; [lia | split; [exact Hreason | split; [exact Hd |]]]].
    rewrite (try_report_raise X S r _ Hd); reflexivity.
  - left; split; [reflexivity | exact Hd].
Qed.

(** A body that is not JSON is printed as its first 500 characters: a
    prefix of the text that stops at a character boundary, of length the
    smaller of 500 and the text's length. *)
Theorem non_json_body_truncated :
  forall (X : externals) (content_str : string),
    json_pretty X content_str = None ->
    exists shown rest,
      print_response_body X content_str = ([Print shown], Ok tt) /\
      char_length shown = Nat.min 500 (char_length content_str) /\
      content_str = shown ++ rest /\
      (rest = "" \/ exists c r, rest = String c r /\ char_start c = true).
Proof.
  intros X s H; unfold print_response_body; rewrite H.
  destruct (char_prefix_split 500 s) as [rest [Hr Hb]].
  exists (char_prefix 500 s), rest.
  split; [reflexivity | split; [apply char_prefix_length | split; assumption]].
Qed.

(** ** How the runs end *)

Lemma try_termination (m : io unit) :
  match snd (try_except_Exception m) with
  | Exited c => c = 0
  | Uncaught e => snd m = Raise e /\ is_Exception e = false
  end.
Proof.
  destruct m as [out [[]|e]]; simpl; [reflexivity|].
  destruct (is_Exception e) eqn:He; simpl; [reflexivity | split; [reflexivity | exact He]].
Qed.

(** [python main.py] exits with status 1 exactly when one of
    [PRIVATE_KEY], [RESOURCE_SERVER_URL] and [ENDPOINT_PATH] is unset or
    empty, and with status 0 otherwise; what ends it uncaught is an error of
    [Account.from_key], an error creating the client, or an exception
    outside the [Exception] class. *)
Theorem main_py_exit_status :
  forall (X : externals) (env : string -> option string),
    let configured := truthy (env "PRIVATE_KEY") && truthy (env "RESOURCE_SERVER_URL")
                        && truthy (env "ENDPOINT_PATH") in
    match snd (Main.main_py X env) with
    | Exited c => (c = 1 /\ configured = false) \/ (c = 0 /\ configured = true)
    | Uncaught e =>
        configured = true /\
        (account_from_key X (unwrap (env "PRIVATE_KEY")) = Raise e \/
         open_client X (unwrap (env "RESOURCE_SERVER_URL")) (auth_headers (env "SUPABASE_ANON_KEY"))
           = Raise e \/
         is_Exception e = false)
    end.
Proof.
  intros X env; cbv zeta; unfold Main.main_py; cbv zeta.
  destruct (truthy (env "PRIVATE_KEY") && truthy (env "RESOURCE_SERVER_URL")
            && truthy (env "ENDPOINT_PATH")); cbn [negb]; [|left; split; reflexivity].
  destruct (account_from_key X (unwrap (env "PRIVATE_KEY"))) as [address|e] eqn:Hacc.
  - destruct (open_client X (unwrap (env "RESOURCE_SERVER_URL"))
                (auth_headers (env "SUPABASE_ANON_KEY"))) as [[]|e] eqn:Hopen;
      [|simpl; split; [reflexivity | right; left; reflexivity]].
    pose proof (try_termination (Main.main_try_body X (unwrap (env "RESOURCE_SERVER_URL"))
                  (unwrap (env "ENDPOINT_PATH")) address (auth_headers (env "SUPABASE_ANON_KEY"))))
      as Ht.
    destruct (try_except_Exception _) as [out2 [c|e]]; simpl in Ht |- *.
    + right; split; [exact Ht | reflexivity].
    + split; [reflexivity | right; right; apply Ht].
  - simpl; split; [reflexivity | left; reflexivity].
Qed.

Lemma parse_exit_code (env : string -> option string) (args : list string)
    (out : list event) (c : nat) :
  TestFunction.parse_args env args = TestFunction.ParseExit out c -> c = 1.
Proof.
  unfold TestFunction.parse_args; destruct args as [|a r]; [congruence|]; cbv zeta.
  destruct (TestFunction.in_configs _); [congruence|].
  destruct (negb _); congruence.
Qed.

(** [python test_function.py] exits with status 0 or 1, and with status 1
    only from [parse_args]; what ends it uncaught is an error of
    [Account.from_key] or an exception outside the [Exception] class. *)
Theorem test_function_exit_status :
  forall (X : externals) (env : string -> option string) (args : list string),
    match snd (TestFunction.run_test_function X env args) with
    | Exited c =>
        c = 0 \/ (c = 1 /\ exists out, TestFunction.parse_args env args = TestFunction.ParseExit out 1)
    | Uncaught e =>
        (exists out function_name params config,
           TestFunction.parse_args env args = TestFunction.Parsed out function_name params /\
           TestFunction.config_lookup TestFunction.FUNCTION_CONFIGS function_name = Some config /\
           (TestFunction.urlencode_checked (dict_merge (TestFunction.default_params config) params)
              = Raise e \/
            account_from_key X (unwrap (env "PRIVATE_KEY")) = Raise e \/
            open_client X (or_default (env "RESOURCE_SERVER_URL") TestFunction.default_base_url)
              (auth_headers (env "SUPABASE_ANON_KEY")) = Raise e)) \/
        is_Exception e = false
    end.
Proof.
  intros X env args; unfold TestFunction.run_test_function.
  destruct (TestFunction.parse_args env args) as [out c|out fn ps] eqn:Hp; simpl.
  - pose proof (parse_exit_code env args out c Hp) as ->; right; split; [reflexivity | eauto].
  - unfold TestFunction.test_function.
    destruct (TestFunction.config_lookup TestFunction.FUNCTION_CONFIGS fn) as [config|] eqn:Hcfg;
      [|left; reflexivity].
    cbv zeta.
    destruct (TestFunction.urlencode_checked (dict_merge (TestFunction.default_params config) ps))
      as [q|e] eqn:Hq; [|simpl; left; exists out, fn, ps, config; split; [first [reflexivity | assumption] | split; [first [reflexivity | assumption] | left; first [reflexivity | assumption]]]].
    cbv zeta; destruct (negb (truthy (env "PRIVATE_KEY"))); [left; reflexivity|].
    destruct (account_from_key X (unwrap (env "PRIVATE_KEY"))) as [address|e] eqn:Hacc;
      [|left; exists out, fn, ps, config; split; [first [reflexivity | assumption] | split; [first [reflexivity | assumption] | right; left; first [reflexivity | assumption]]]].
    destruct (open_client X (or_default (env "RESOURCE_SERVER_URL") TestFunction.default_base_url)
                (auth_headers (env "SUPABASE_ANON_KEY"))) as [[]|e] eqn:Hopen;
      [|left; exists out, fn, ps, config; split; [first [reflexivity | assumption] | split; [first [reflexivity | assumption] | right; right; first [reflexivity | assumption]]]].
    match goal with
    | |- context [try_except_Exception ?m] => pose proof (try_termination m) as Ht
    end.
    destruct (try_except_Exception _) as [out2 [c|e]]; simpl in Ht |- *.
    + left; exact Ht.
    + right; apply Ht.
Qed.

(** ** The requests a run sends *)

Lemma count_gets_app (a b : list event) : count_gets (a ++ b) = count_gets a + count_gets b.
Proof. unfold count_gets; rewrite filter_app, length_app; reflexivity. Qed.

Lemma bind_count {A B} (m : io A) (f : A -> io B) :
  count_gets (fst (bind m f))
    = count_gets (fst m) + match snd m with Ok a => count_gets (fst (f a)) | Raise _ => 0 end.
Proof.
  destruct m as [out [a|e]]; simpl.
  - destruct (f a) as [o r]; simpl; apply count_gets_app.
  - lia.
Qed.

Lemma bind_no_gets {A B} (m : io A) (f : A -> io B) :
  count_gets (fst m) = 0 -> (forall a, count_gets (fst (f a)) = 0) ->
  count_gets (fst (bind m f)) = 0.
Proof.
  intros Hm Hf; rewrite bind_count, Hm; destruct (snd m); [apply Hf | reflexivity].
Qed.

Lemma for_each_no_gets {A} (l : list A) (f : A -> io unit) :
  (forall x, count_gets (fst (f x)) = 0) -> count_gets (fst (for_each l f)) = 0.
Proof.
  intros Hf; induction l as [|x r IH]; [reflexivity|].
  cbn [for_each]; apply bind_no_gets; [apply Hf | intros _; exact IH].
Qed.

Ltac no_gets :=
  repeat (first [ apply bind_no_gets; [|intros ?] | reflexivity ]).

Lemma print_response_headers_no_gets (hs : list (string * string)) :
  count_gets (fst (print_response_headers hs)) = 0.
Proof.
  apply for_each_no_gets; intros [k v]; cbv beta iota.
  destruct (header_shown k); reflexivity.
Qed.

Lemma print_response_body_no_gets (X : externals) (s : string) :
  count_gets (fst (print_response_body X s)) = 0.
Proof. unfold print_response_body; destruct (json_pretty X s); reflexivity. Qed.

Lemma print_verification_no_gets (S : script) (status : nat) :
  count_gets (fst (print_verification S status)) = 0.
Proof.
  unfold print_verification.
  destruct (Nat.eqb status 200); [|destruct (Nat.eqb status 402)]; destruct S; no_gets.
Qed.

Lemma print_settlement_no_gets (X : externals) (S : script) (hs : list (string * string)) :
  count_gets (fst (print_settlement X S hs)) = 0.
Proof.
  unfold print_settlement; destruct (header_lookup hs "X-Payment-Response"); destruct S; no_gets.
Qed.

Lemma report_no_gets (X : externals) (S : script) (r : response) :
  count_gets (fst (report X S r)) = 0.
Proof.
  unfold report, report_head.
  repeat (first [ apply bind_no_gets; [|intros ?]
                | apply print_response_headers_no_gets
                | apply print_response_body_no_gets
                | apply print_verification_no_gets
                | apply print_settlement_no_gets
                | reflexivity ]).
Qed.

Lemma try_count (m : io unit) :
  count_gets (fst (try_except_Exception m)) = count_gets (fst m).
Proof.
  destruct m as [out [[]|e]]; unfold try_except_Exception; [reflexivity|].
  destruct (is_Exception e); cbn [fst]; [|reflexivity].
  rewrite count_gets_app, Nat.add_0_r; reflexivity.
Qed.

Lemma http_get_then_report_count (X : externals) (S : script) (b p : string)
    (hs : list (string * string)) :
  count_gets (fst (response <- http_get X b hs p ;; report X S response)) = 1.
Proof.
  rewrite bind_count; unfold http_get; cbn [fst snd].
  destruct (client_get X b hs p); [rewrite report_no_gets|]; reflexivity.
Qed.

Lemma main_try_body_count (X : externals) (b p address : string) (hs : list (string * string)) :
  count_gets (fst (Main.main_try_body X b p address hs)) = 1.
Proof.
  unfold Main.main_try_body.
  repeat (rewrite bind_count; cbn [print fst snd]; cbv beta iota).
  unfold http_get; cbn [fst snd].
  destruct (client_get X b hs p); [rewrite report_no_gets|]; reflexivity.
Qed.

Lemma filter_single (l : list event) (ev : event) :
  count_gets l = 1 -> In ev l -> is_http_get ev = true -> filter is_http_get l = [ev].
Proof.
  unfold count_gets; intros Hc Hin Hev.
  assert (In ev (filter is_http_get l)) as H by (apply filter_In; split; assumption).
  destruct (filter is_http_get l) as [|x [|y r]]; simpl in Hc; try lia.
  destruct H as [->|[]]; reflexivity.
Qed.

Lemma In_bind_tail {A B} (m : io A) (f : A -> io B) (a : A) (ev : event) :
  snd m = Ok a -> In ev (fst (f a)) -> In ev (fst (bind m f)).
Proof.
  intros Hm Hin; rewrite (bind_ok m f a Hm); cbn [fst]; apply in_or_app; right; exact Hin.
Qed.

Lemma main_try_body_sends_get (X : externals) (b p address : string)
    (hs : list (string * string)) :
  In (HttpGet b p) (fst (Main.main_try_body X b p address hs)).
Proof.
  unfold Main.main_try_body.
  repeat (eapply In_bind_tail; [reflexivity|]; cbv beta).
  destruct (bind_out_prefix (http_get X b hs p) (fun response => report X MainPy response))
    as [r Hr].
  rewrite Hr; left; reflexivity.
Qed.

Lemma parse_parsed_out (env : string -> option string) (args : list string)
    (out : list event) (fn : string) (ps : dict) :
  TestFunction.parse_args env args = TestFunction.Parsed out fn ps -> out = [].
Proof.
  unfold TestFunction.parse_args; destruct args as [|a r]; [discriminate|]; cbv zeta.
  destruct (TestFunction.in_configs _); [congruence|].
  destruct (negb _); congruence.
Qed.

Lemma parse_exit_no_gets (env : string -> option string) (args : list string)
    (out : list event) (c : nat) :
  TestFunction.parse_args env args = TestFunction.ParseExit out c -> filter is_http_get out = [].
Proof.
  unfold TestFunction.parse_args; destruct args as [|a r].
  - intros H; injection H as <- _; vm_compute; reflexivity.
  - cbv zeta; destruct (TestFunction.in_configs _); [discriminate|].
    destruct (negb _); [|discriminate].
    intros H; injection H as <- _; reflexivity.
Qed.

(** [python main.py] sends one request, [GET ENDPOINT_PATH] on
    [RESOURCE_SERVER_URL], when the three required variables are set, the
    private key gives an account and the client is created, and none
    otherwise. *)
Theorem main_py_requests :
  forall (X : externals) (env : string -> option string),
    filter is_http_get (fst (Main.main_py X env))
      = if truthy (env "PRIVATE_KEY") && truthy (env "RESOURCE_SERVER_URL")
           && truthy (env "ENDPOINT_PATH")
        then match account_from_key X (unwrap (env "PRIVATE_KEY")) with
             | Ok _ =>
                 match open_client X (unwrap (env "RESOURCE_SERVER_URL"))
                         (auth_headers (env "SUPABASE_ANON_KEY")) with
                 | Ok _ =>
                     [HttpGet (unwrap (env "RESOURCE_SERVER_URL")) (unwrap (env "ENDPOINT_PATH"))]
                 | Raise _ => []
                 end
             | Raise _ => []
             end
        else [].
Proof.
  intros X env; unfold Main.main_py; cbv zeta.
  destruct (truthy (env "PRIVATE_KEY") && truthy (env "RESOURCE_SERVER_URL")
            && truthy (env "ENDPOINT_PATH")); cbn [negb]; [|reflexivity].
  destruct (account_from_key X (unwrap (env "PRIVATE_KEY"))) as [address|e];
    [|destruct (truthy (env "SUPABASE_ANON_KEY")); reflexivity].
  destruct (open_client X (unwrap (env "RESOURCE_SERVER_URL"))
              (auth_headers (env "SUPABASE_ANON_KEY"))) as [[]|e];
    [|destruct (truthy (env "SUPABASE_ANON_KEY")); reflexivity].
  set (m := Main.main_try_body X (unwrap (env "RESOURCE_SERVER_URL"))
              (unwrap (env "ENDPOINT_PATH")) address (auth_headers (env "SUPABASE_ANON_KEY"))).
  pose proof (try_count m) as Hc; unfold m at 2 in Hc; rewrite main_try_body_count in Hc.
  pose proof (TestFunctionFacts.try_run_keeps_body_output m _
                (main_try_body_sends_get X _ _ address (auth_headers (env "SUPABASE_ANON_KEY"))))
    as Hin.
  destruct (try_except_Exception m) as [out2 t]; cbn [fst] in Hc, Hin |- *.
  apply filter_single; [| | reflexivity].
  - rewrite !count_gets_app, Hc; destruct (truthy (env "SUPABASE_ANON_KEY")); reflexivity.
  - apply in_or_app; right; apply in_or_app; right; exact Hin.
Qed.

(** [python test_function.py] sends one request when [parse_args] gives a
    registered function, [urlencode] encodes the parameters,
    [PRIVATE_KEY] is set and gives an account and the client is created,
    and none otherwise; the request goes to [RESOURCE_SERVER_URL] (the
    project URL by default) with the path built from the function name and
    the query string of the parameters merged over the registry
    defaults. *)
Theorem test_function_requests :
  forall (X : externals) (env : string -> option string) (args : list string),
    filter is_http_get (fst (TestFunction.run_test_function X env args))
      = match TestFunction.parse_args env args with
        | TestFunction.ParseExit _ _ => []
        | TestFunction.Parsed _ fn ps =>
            match TestFunction.config_lookup TestFunction.FUNCTION_CONFIGS fn with
            | None => []
            | Some config =>
                match TestFunction.urlencode_checked
                        (dict_merge (TestFunction.default_params config) ps) with
                | Raise _ => []
                | Ok query_string =>
                    if truthy (env "PRIVATE_KEY") then
                      match account_from_key X (unwrap (env "PRIVATE_KEY")) with
                      | Ok _ =>
                          match open_client X
                                  (or_default (env "RESOURCE_SERVER_URL")
                                     TestFunction.default_base_url)
                                  (auth_headers (env "SUPABASE_ANON_KEY")) with
                          | Ok _ =>
                              [HttpGet (or_default (env "RESOURCE_SERVER_URL")
                                          TestFunction.default_base_url)
                                 (TestFunction.build_endpoint_path fn query_string)]
                          | Raise _ => []
                          end
                      | Raise _ => []
                      end
                    else []
                end
            end
        end.
Proof.
  intros X env args; unfold TestFunction.run_test_function.
  destruct (TestFunction.parse_args env args) as [out c|out fn ps] eqn:Hp.
  - exact (parse_exit_no_gets env args out c Hp).
  - rewrite (parse_parsed_out env args out fn ps Hp).
    unfold TestFunction.test_function.
    destruct (TestFunction.config_lookup TestFunction.FUNCTION_CONFIGS fn) as [config|];
      [|reflexivity].
    cbv zeta.
    destruct (TestFunction.urlencode_checked (dict_merge (TestFunction.default_params config) ps))
      as [q|e]; [|reflexivity].
    cbv zeta; destruct (truthy (env "PRIVATE_KEY")); cbn [negb]; [|reflexivity].
    destruct (account_from_key X (unwrap (env "PRIVATE_KEY"))) as [address|e]; [|reflexivity].
    destruct (open_client X (or_default (env "RESOURCE_SERVER_URL") TestFunction.default_base_url)
                (auth_headers (env "SUPABASE_ANON_KEY"))) as [[]|e]; [|reflexivity].
    match goal with
    | |- context [try_except_Exception ?m0] => set (m := m0)
    end.
    pose proof (try_count m) as Hc.
    unfold m at 2, TestFunction.test_try_body in Hc; rewrite http_get_then_report_count in Hc.
    pose proof (TestFunctionFacts.try_run_keeps_body_output m _
                  (TestFunctionFacts.try_body_sends_get X _ _ _)) as Hin.
    destruct (try_except_Exception m) as [out2 t]; cbn [fst] in Hc, Hin |- *.
    apply filter_single; [| | reflexivity].
    + rewrite !count_gets_app, Hc; reflexivity.
    + apply in_or_app; right; apply in_or_app; right; exact Hin.
Qed.

(** A private key that [Account.from_key] rejects ends either script
    with that error uncaught, [Exception] or not: the call sits outside
    the [try].  In test_function.py this happens once [urlencode] has
    encoded the parameters, which it does first. *)
Theorem invalid_private_key_uncaught :
  forall (X : externals) (env : string -> option string) (e : exn),
    account_from_key X (unwrap (env "PRIVATE_KEY")) = Raise e ->
    (truthy (env "PRIVATE_KEY") && truthy (env "RESOURCE_SERVER_URL")
       && truthy (env "ENDPOINT_PATH") = true ->
     Main.main_py X env
       = (if truthy (env "SUPABASE_ANON_KEY")
          then [Print "Using Authorization header with Supabase anon key"] else [], Uncaught e)) /\
    (forall (args : list string) (fn : string) (ps : dict) (config : TestFunction.function_config)
       (query_string : string),
       TestFunction.parse_args env args = TestFunction.Parsed [] fn ps ->
       TestFunction.config_lookup TestFunction.FUNCTION_CONFIGS fn = Some config ->
       TestFunction.urlencode_checked (dict_merge (TestFunction.default_params config) ps)
         = Ok query_string ->
       truthy (env "PRIVATE_KEY") = true ->
       TestFunction.run_test_function X env args = ([], Uncaught e)).
Proof.
  intros X env e Hacc; split.
  - intros Hcfg; unfold Main.main_py; cbv zeta; rewrite Hcfg; cbn [negb]; rewrite Hacc; reflexivity.
  - intros args fn ps config query_string Hp Hcfg Hq Hpk.
    unfold TestFunction.run_test_function; rewrite Hp.
    unfold TestFunction.test_function; rewrite Hcfg; cbv zeta; rewrite Hq; cbv zeta.
    rewrite Hpk; cbn [negb]; rewrite Hacc; reflexivity.
Qed.

(** A parameter that [urlencode] cannot encode (an argument holding a
    lone surrogate, from bytes that are not UTF-8) ends test_function.py
    with the [UnicodeEncodeError] uncaught, before anything is printed:
    [urlencode] runs before the [PRIVATE_KEY] check, [Account.from_key]
    and the banner, outside the [try]. *)
Theorem urlencode_error_uncaught :
  forall (X : externals) (env : string -> option string) (args : list string) (fn : string)
    (ps : dict) (config : TestFunction.function_config) (e : exn),
    TestFunction.parse_args env args = TestFunction.Parsed [] fn ps ->
    TestFunction.config_lookup TestFunction.FUNCTION_CONFIGS fn = Some config ->
    TestFunction.urlencode_checked (dict_merge (TestFunction.default_params config) ps) = Raise e ->
    TestFunction.run_test_function X env args = ([], Uncaught e).
Proof.
  intros X env args fn ps config e Hp Hcfg Hq.
  unfold TestFunction.run_test_function; rewrite Hp.
  unfold TestFunction.test_function; rewrite Hcfg; cbv zeta; rewrite Hq; reflexivity.
Qed.

(** ** Witnesses for the further properties *)

Lemma parse_args_known_override_witness :
  let env := fun k => if String.eqb k "FUNCTION_NAME" then Some "toolzv4" else None in
  env "FUNCTION_NAME" = Some "toolzv4" /\ "toolzv4" <> "" /\
  TestFunction.in_configs "toolzv4" = true /\ ["target=8.8.8.8"] <> [] /\
  TestFunction.parse_args env ["target=8.8.8.8"]
    = TestFunction.Parsed [] "toolzv4" [("target", "8.8.8.8")].
Proof.
  intros env; split; [reflexivity|split; [discriminate|split; [reflexivity|split; [discriminate|]]]].
  exact (parse_args_known_override env "toolzv4" ["target=8.8.8.8"]
           eq_refl ltac:(discriminate) eq_refl ltac:(discriminate)).
Defined.

Lemma parse_args_positional_witness :
  truthy (demo_env "FUNCTION_NAME") = false /\ TestFunction.in_configs "toolzv4" = true /\
  TestFunction.parse_args demo_env ["toolzv4"; "target=8.8.8.8"]
    = TestFunction.Parsed [] "toolzv4" [("target", "8.8.8.8")].
Proof.
  split; [reflexivity|split; [reflexivity|]].
  exact (parse_args_positional demo_env "toolzv4" ["target=8.8.8.8"] eq_refl eq_refl).
Defined.

Lemma parse_args_unknown_exits_one_witness :
  truthy (demo_env "FUNCTION_NAME") = false /\ TestFunction.in_configs "ping" = false /\
  TestFunction.parse_args demo_env ["ping"]
    = TestFunction.ParseExit
        [Print ("Error: '" ++ "ping" ++ "' is not a known function.");
         Print ("Available functions: " ++ repr_list TestFunction.function_names)] 1.
Proof.
  split; [reflexivity|split; [reflexivity|]].
  exact (parse_args_unknown_exits_one demo_env "ping" [] eq_refl eq_refl).
Defined.

Lemma dict_merge_spec_witness :
  NoDup (map fst [("limit", "5"); ("q", "x")]) /\
  dict_get (dict_merge [("limit", "10"); ("offset", "0")] [("limit", "5"); ("q", "x")]) "limit"
    = Some "5".
Proof.
  assert (NoDup (map fst [("limit", "5"); ("q", "x")])) as Hnd
    by (constructor; [simpl; intros [H|[]]; discriminate | constructor; [intros []|constructor]]).
  split; [exact Hnd|].
  exact (proj1 (dict_merge_spec [("limit", "10"); ("offset", "0")] [("limit", "5"); ("q", "x")] Hnd)
           "limit").
Defined.

Lemma urlencode_safe_params_witness :
  forallb (fun kv => all_chars url_safe_char (fst kv) && all_chars url_safe_char (snd kv))
    [("limit", "5"); ("sort", "asc")] = true /\
  TestFunction.urlencode [("limit", "5"); ("sort", "asc")] = "limit=5&sort=asc".
Proof.
  split; [reflexivity|].
  exact (urlencode_safe_params [("limit", "5"); ("sort", "asc")] eq_refl).
Defined.

Lemma undecodable_body_report_witness :
  try_except_Exception
    (report (demo_externals (Raise KeyboardInterrupt)) MainPy (mk_response 200 [] png_bytes))
    = ([Print ("2. Response Status: " ++ "200");
        Print (nl ++ "❌ Error occurred: "
               ++ "'utf-8' codec can't decode byte 0x89 in position 0: invalid start byte");
        PrintTraceback (UnicodeDecodeError
                          "'utf-8' codec can't decode byte 0x89 in position 0: invalid start byte")],
       Exited 0).
Proof.
  destruct (undecodable_body_report (demo_externals (Raise KeyboardInterrupt)) MainPy
              (mk_response 200 [] png_bytes)) as [[He _] | (st & en & reason & He & _ & _ & _ & Ht)].
  - vm_compute in He; discriminate He.
  - rewrite Ht; vm_compute in He; injection He as <- <- <-; reflexivity.
Defined.

Lemma non_json_body_truncated_witness :
  json_pretty (demo_externals (Raise KeyboardInterrupt)) "not json" = None /\
  exists shown rest,
    print_response_body (demo_externals (Raise KeyboardInterrupt)) "not json"
      = ([Print shown], Ok tt) /\
    char_length shown = Nat.min 500 (char_length "not json") /\
    "not json" = shown ++ rest /\
    (rest = "" \/ exists c r, rest = String c r /\ char_start c = true).
Proof.
  split; [reflexivity|].
  exact (non_json_body_truncated (demo_externals (Raise KeyboardInterrupt)) "not json" eq_refl).
Defined.

Lemma invalid_private_key_uncaught_witness :
  let e := mk_exn ExceptionClass "Non-hexadecimal digit found" in
  let X := mk_externals (fun _ _ => Ok tt) (fun _ _ _ => Raise KeyboardInterrupt) (fun _ => None)
             (fun _ => Ok []) (fun _ => Raise e) in
  account_from_key X (unwrap (demo_env "PRIVATE_KEY")) = Raise e /\
  truthy (demo_env "PRIVATE_KEY") && truthy (demo_env "RESOURCE_SERVER_URL")
    && truthy (demo_env "ENDPOINT_PATH") = true /\
  Main.main_py X demo_env = ([], Uncaught e) /\
  TestFunction.run_test_function X demo_env ["toolzv4"] = ([], Uncaught e).
Proof.
  intros e X; split; [reflexivity|split; [reflexivity|split]].
  - exact (proj1 (invalid_private_key_uncaught X demo_env e eq_refl) eq_refl).
  - apply (proj2 (invalid_private_key_uncaught X demo_env e eq_refl) ["toolzv4"] "toolzv4" []
             (TestFunction.mk_config "IPv4 Network Connectivity Testing Tool"
                [("target", "8.8.8.8"); ("count", "4"); ("timeout", "5000")])
             "target=8.8.8.8&count=4&timeout=5000");
      vm_compute; reflexivity.
Defined.

Lemma urlencode_error_uncaught_witness :
  let surrogate := String (ascii_of_nat 237) (String (ascii_of_nat 179)
                     (String (ascii_of_nat 191) EmptyString)) in
  let e := TestFunction.UnicodeEncodeError
             "'utf-8' codec can't encode character '\udcff' in position 0: surrogates not allowed" in
  let config := TestFunction.mk_config "IPv4 Network Connectivity Testing Tool"
                  [("target", "8.8.8.8"); ("count", "4"); ("timeout", "5000")] in
  TestFunction.parse_args (fun _ => None) ["toolzv4"; "target=" ++ surrogate]
    = TestFunction.Parsed [] "toolzv4" [("target", surrogate)] /\
  TestFunction.config_lookup TestFunction.FUNCTION_CONFIGS "toolzv4" = Some config /\
  TestFunction.urlencode_checked
    (dict_merge (TestFunction.default_params config) [("target", surrogate)]) = Raise e /\
  TestFunction.run_test_function (demo_externals (Raise KeyboardInterrupt)) (fun _ => None)
    ["toolzv4"; "target=" ++ surrogate] = ([], Uncaught e).
Proof.
  intros surrogate e config.
  split; [vm_compute; reflexivity|split; [reflexivity|split; [vm_compute; reflexivity|]]].
  apply (urlencode_error_uncaught (demo_externals (Raise KeyboardInterrupt)) (fun _ => None)
           ["toolzv4"; "target=" ++ surrogate] "toolzv4" [("target", surrogate)] config e);
    vm_compute; reflexivity.
Defined.
